(** * number-bot: the deterministic "math brain" of [app.py]

    A shallow embedding of the four functions of [src/app.py] that sit
    downstream of the language model, and the properties the specification
    states about them:

    - [safe_eval_expression]  (the allow-list arithmetic evaluator),
    - [build_count_sequence]  (the "ten jumps" planner),
    - [estimate_count_time]   (seconds to a human phrase),
    - [apply_math_logic]      (the reconciliation of the model's JSON).

    The route [chat], which calls them, is embedded with its two helpers
    [transcribe_audio] and [call_brain], and the route [speak]; the
    properties of the last part are read off the code.

    Python values are modelled as the interpreter has them: [int] is [Z]
    (unbounded), [float] is an IEEE-754 binary64 number ([spec_float] with
    precision 53 and maximal exponent 1024), [str] is [string] (ASCII text;
    a byte above 127 is an opaque character that is neither a digit, a
    letter nor a blank), a [dict] with string keys is a [gmap string _].
    A Python call either returns a value or raises: [result].

    What the host interpreter does and no standard pins down (the C
    library's [pow], complex arithmetic, [str()] of a non-string object, the
    grammar outside the fragment modelled here) is a field of [Host]; every
    theorem holds for every host.  The OpenAI client and the [json] module
    are the fields of [Services], and the calls made are recorded.  The
    optional limit on the length of decimal integer strings (Python 3.11's
    [sys.set_int_max_str_digits]) and the interpreter's recursion and memory
    limits are not modelled. *)

From Stdlib Require Import ZArith String Ascii List Bool Lia DecimalString.
From Stdlib Require Import SpecFloat Sorted.
From stdpp Require Import base tactics option list gmap strings.

#[local] Set Warnings "-register-all".
#[local] Open Scope string_scope.
#[local] Open Scope Z_scope.

(** ** Exceptions and results *)

(** The Python exception classes the modelled code can raise.  The
    specification's names: [SyntaxError] is its InvalidExpression,
    [ValueError] its UnsupportedConstruct, [ZeroDivisionError] its
    DivisionByZero. *)
Inductive exn : Type :=
| SyntaxError
| ValueError
| ZeroDivisionError
| OverflowError
| TypeError
| AttributeError
| RecursionError
| MemoryError.

Inductive result (A : Type) : Type :=
| Val (a : A)
| Raise (e : exn).
Arguments Val {A} a.
Arguments Raise {A} e.

#[global] Instance result_ret : MRet result := fun A a => Val a.
#[global] Instance result_bind : MBind result := fun A B f m =>
  match m with
  | Val a => f a
  | Raise e => Raise e
  end.

#[global] Instance result_fmap : FMap result := fun A B f m =>
  match m with
  | Val a => Val (f a)
  | Raise e => Raise e
  end.

Definition is_Val {A} (r : result A) : bool :=
  match r with Val _ => true | Raise _ => false end.

(** ** Python floats: IEEE-754 binary64 *)

Module PyFloat.

Definition prec : Z := 53.
Definition emax : Z := 1024.

Definition float : Type := spec_float.

Definition add : float -> float -> float := SFadd prec emax.
Definition sub : float -> float -> float := SFsub prec emax.
Definition mul : float -> float -> float := SFmul prec emax.
Definition div : float -> float -> float := SFdiv prec emax.
Definition neg : float -> float := SFopp.

(** The nearest float to an integer, ties to even; an infinity when the
    integer is out of range. *)
Definition of_Z (z : Z) : float := binary_normalize prec emax z 0 false.

Definition one : float := of_Z 1.
Definition half : float := S754_finite false 4503599627370496 (-53).

Definition is_zero (f : float) : bool :=
  match f with S754_zero _ => true | _ => false end.



(** The sign bit ([false] for a NaN). *)
Definition signbit (f : float) : bool :=
  match f with
  | S754_zero s | S754_infinity s | S754_finite s _ _ => s
  | S754_nan => false
  end.

(** C's [x < 0], [x > 0]. *)
Definition ltz (f : float) : bool := SFltb f (S754_zero false).
Definition gtz (f : float) : bool := SFltb (S754_zero false) f.

(** [copysign(0.0, x)]. *)
Definition zero_like (f : float) : float := S754_zero (signbit f).

(** [PyLong_AsDouble]: conversion of an [int] operand, which raises when the
    rounded value is not finite. *)
Definition float_of_int (z : Z) : result float :=
  match of_Z z with
  | S754_infinity _ => Raise OverflowError
  | f => Val f
  end.

(** [num / 2^k] rounded to the nearest integer, ties to even ([num >= 0],
    [k > 0]). *)
Definition rne_shift (num k : Z) : Z :=
  let q := Z.shiftr num k in
  let r := num - Z.shiftl q k in
  let h := Z.shiftl 1 (k - 1) in
  match r ?= h with
  | Lt => q
  | Gt => q + 1
  | Eq => if Z.even q then q else q + 1
  end.

(** The magnitude of a finite float times [scale], rounded to the nearest
    integer (ties to even).  [scale = 1] is Python's [round(x)] up to the
    sign. *)
Definition scaled_round (scale : Z) (m : positive) (e : Z) : Z :=
  if 0 <=? e then Z.pos m * scale * 2 ^ e
  else rne_shift (Z.pos m * scale) (- e).

(** [float.is_integer]. *)
Definition is_integer (f : float) : bool :=
  match f with
  | S754_zero _ => true
  | S754_finite _ m e =>
      (0 <=? e) || (Z.pos m mod 2 ^ (- e) =? 0)
  | _ => false
  end.

(** [int(x)] for a float: truncation toward zero; infinities and NaNs
    raise. *)
Definition to_int (f : float) : result Z :=
  match f with
  | S754_zero _ => Val 0
  | S754_finite s m e =>
      let a := if 0 <=? e then Z.pos m * 2 ^ e else Z.shiftr (Z.pos m) (- e) in
      Val (if s then - a else a)
  | S754_infinity _ => Raise OverflowError
  | S754_nan => Raise ValueError
  end.

(** [round(x)] with one argument: the nearest [int], ties to even. *)
Definition round (f : float) : result Z :=
  match f with
  | S754_zero _ => Val 0
  | S754_finite s m e =>
      let a := scaled_round 1 m e in Val (if s then - a else a)
  | S754_infinity _ => Raise OverflowError
  | S754_nan => Raise ValueError
  end.

(** Exact comparison of a float with an [int] ([float_richcompare]):
    [x < z]. *)
Definition lt_int (f : float) (z : Z) : bool :=
  match f with
  | S754_nan => false
  | S754_infinity s => s
  | S754_zero _ => 0 <? z
  | S754_finite s m e =>
      let a := if s then Z.neg m else Z.pos m in
      if 0 <=? e then a * 2 ^ e <? z else a <? z * 2 ^ (- e)
  end.

(** C's [floor]. *)
Definition floor (f : float) : float :=
  match f with
  | S754_finite s m e =>
      if 0 <=? e then f
      else
        let q := Z.shiftr (Z.pos m) (- e) in
        let exact := Z.pos m mod 2 ^ (- e) =? 0 in
        if s then binary_normalize prec emax (- (if exact then q else q + 1)) 0 true
        else binary_normalize prec emax q 0 false
  | _ => f
  end.

(** C's [fmod], whose result is exact. *)
Definition fmod (x y : float) : float :=
  match x, y with
  | S754_nan, _ | _, S754_nan => S754_nan
  | S754_infinity _, _ => S754_nan
  | _, S754_zero _ => S754_nan
  | _, S754_infinity _ => x
  | S754_zero _, _ => x
  | S754_finite sx mx ex, S754_finite _ my ey =>
      let e := Z.min ex ey in
      let r := (Z.pos mx * 2 ^ (ex - e)) mod (Z.pos my * 2 ^ (ey - e)) in
      binary_normalize prec emax (if sx then - r else r) e sx
  end.

(** [operator.truediv] on two floats ([float_div]). *)
Definition truediv (x y : float) : result float :=
  if SFeqb y (S754_zero false) then Raise ZeroDivisionError
  else Val (div x y).

(** [operator.mod] on two floats ([float_rem]). *)
Definition rem (vx wx : float) : result float :=
  if SFeqb wx (S754_zero false) then Raise ZeroDivisionError
  else
    let md := fmod vx wx in
    if SFeqb md (S754_zero false) then Val (zero_like wx)
    else if negb (Bool.eqb (ltz wx) (ltz md)) then Val (add md wx)
    else Val md.

(** [operator.floordiv] on two floats ([float_floor_div], through
    [_float_div_mod]). *)
Definition floordiv (vx wx : float) : result float :=
  if SFeqb wx (S754_zero false) then Raise ZeroDivisionError
  else
    let md := fmod vx wx in
    let dv := div (sub vx md) wx in
    let dv :=
      if SFeqb md (S754_zero false) then dv
      else if negb (Bool.eqb (ltz wx) (ltz md)) then sub dv one
      else dv in
    if SFeqb dv (S754_zero false) then Val (zero_like (div vx wx))
    else
      let fl := floor dv in
      if SFltb half (sub dv fl) then Val (add fl one) else Val fl.

(** [int / int] ([long_true_divide]): the quotient correctly rounded. *)
Definition int_truediv (a b : Z) : result float :=
  match a, b with
  | _, Z0 => Raise ZeroDivisionError
  | Z0, _ => Val (S754_zero (b <? 0))
  | _, _ =>
      match div (S754_finite (a <? 0) (Z.to_pos (Z.abs a)) 0)
                (S754_finite (b <? 0) (Z.to_pos (Z.abs b)) 0) with
      | S754_infinity _ => Raise OverflowError
      | f => Val f
      end
  end.

(** The value of a decimal literal [digits * 10^(-frac)], correctly
    rounded; a literal too large for a float is an infinity. *)
Definition of_decimal (digits : Z) (frac : Z) : float :=
  match digits with
  | Z0 => S754_zero false
  | _ => div (S754_finite false (Z.to_pos digits) 0)
             (S754_finite false (Z.to_pos (10 ^ frac)) 0)
  end.

End PyFloat.

(** ** Python strings and number formatting *)

Module PyStr.

Definition chars (s : string) : list ascii := list_ascii_of_string s.
Definition of_chars (l : list ascii) : string := string_of_list_ascii l.

Definition code (c : ascii) : N := N_of_ascii c.

Definition is_digit (c : ascii) : bool :=
  ((48 <=? code c) && (code c <=? 57))%N.

Definition digit_val (c : ascii) : Z := Z.of_N (code c) - 48.

(** Blanks of [str.strip()]: tab, line feed, vertical tab, form feed,
    carriage return, the four separators 28 to 31, and the space. *)
Definition is_space (c : ascii) : bool :=
  (((9 <=? code c) && (code c <=? 13))
   || ((28 <=? code c) && (code c <=? 32)))%N.

(** Blanks of [int(str)]: the C locale's. *)
Definition is_c_space (c : ascii) : bool :=
  (((9 <=? code c) && (code c <=? 13)) || (code c =? 32))%N.

Definition ascii_eqb (a b : ascii) : bool := (code a =? code b)%N.

Fixpoint drop_while (p : ascii -> bool) (l : list ascii) : list ascii :=
  match l with
  | c :: l' => if p c then drop_while p l' else l
  | [] => []
  end.

Definition rstrip_by (p : ascii -> bool) (s : string) : string :=
  of_chars (rev (drop_while p (rev (chars s)))).

Definition lstrip_by (p : ascii -> bool) (s : string) : string :=
  of_chars (drop_while p (chars s)).

(** [s.strip()]. *)
Definition strip (s : string) : string :=
  rstrip_by is_space (lstrip_by is_space s).

(** [s.rstrip(c)] for a one-character argument. *)
Definition rstrip (c : ascii) (s : string) : string :=
  rstrip_by (ascii_eqb c) s.

Definition upper_char (c : ascii) : ascii :=
  if ((97 <=? code c) && (code c <=? 122))%N
  then ascii_of_N (code c - 32) else c.

(** [s.upper()]. *)
Definition upper (s : string) : string :=
  of_chars (map upper_char (chars s)).

(** [sep.join(l)]. *)
Fixpoint join (sep : string) (l : list string) : string :=
  match l with
  | [] => ""
  | [s] => s
  | s :: l' => s +:+ sep +:+ join sep l'
  end.

(** [str(z)] for an [int]: its decimal digits, with a minus sign. *)
Definition of_int (z : Z) : string := NilZero.string_of_int (Z.to_int z).

(** A comma before every group of three digits, on the reversed digits;
    [k] counts the digits of the current group. *)
Fixpoint group_rev (k : nat) (l : list ascii) : list ascii :=
  match l with
  | [] => []
  | c :: l' =>
      match k with
      | 3%nat => ","%char :: c :: group_rev 1 l'
      | _ => c :: group_rev (S k) l'
      end
  end.

(** [f"{z:,}"]: an [int] with thousands separators. *)
Definition grouped (z : Z) : string :=
  (if z <? 0 then "-" else "") +:+
  of_chars (rev (group_rev 0 (rev (chars (of_int (Z.abs z)))))).

Fixpoint zeros (n : nat) : string :=
  match n with O => "" | S n' => "0" +:+ zeros n' end.

(** [n] as exactly four digits ([0 <= n < 10000]). *)
Definition pad4 (n : Z) : string :=
  let d := of_int n in zeros (4 - String.length d) +:+ d.

(** [f"{x:.4f}"] for a [float]: four fractional digits, the exact binary
    value rounded to nearest, ties to even. *)
Definition fixed4 (f : PyFloat.float) : string :=
  match f with
  | S754_nan => "nan"
  | S754_infinity s => if s then "-inf" else "inf"
  | S754_zero s => (if s then "-" else "") +:+ "0.0000"
  | S754_finite s m e =>
      let d := PyFloat.scaled_round 10000 m e in
      (if s then "-" else "") +:+ of_int (d / 10000) +:+ "." +:+ pad4 (d mod 10000)
  end.

(** [f"{z:.4f}"] for a [complex]: both parts, the imaginary one signed. *)
Definition fixed4_complex (re im : PyFloat.float) : string :=
  let i := fixed4 im in
  fixed4 re +:+
  (match i with String "-" _ => i | _ => "+" +:+ i end) +:+ "j".

(** The digits of [int(str)] after the sign: digits, single underscores
    between two digits allowed.  [prev] tells whether the previous character
    was a digit. *)
Fixpoint int_digits (prev : bool) (acc : Z) (l : list ascii) : option Z :=
  match l with
  | [] => if prev then Some acc else None
  | c :: l' =>
      if is_digit c then int_digits true (10 * acc + digit_val c) l'
      else if ascii_eqb c "_" then
        if prev then
          match l' with
          | d :: _ => if is_digit d then int_digits false acc l' else None
          | [] => None
          end
        else None
      else None
  end.

(** [int(s)] for a [str], base ten: [None] is Python's [ValueError]. *)
Definition to_int (s : string) : option Z :=
  let l := rev (drop_while is_c_space (rev (drop_while is_c_space (chars s)))) in
  match l with
  | "-"%char :: l' => Z.opp <$> int_digits false 0 l'
  | "+"%char :: l' => int_digits false 0 l'
  | _ => int_digits false 0 l
  end.

End PyStr.

(** ** Python values *)

Abbreviation float := PyFloat.float.

(** The numbers an evaluation can produce: [int], [bool] (a subclass of
    [int]), [float] and [complex]. *)
Inductive number : Type :=
| NInt (z : Z)
| NBool (b : bool)
| NFloat (f : float)
| NComplex (re im : float).

(** The objects of the classifier's JSON (and what the reconciliation stores
    back into it). *)
Inductive pyval : Type :=
| PNone
| PBool (b : bool)
| PInt (z : Z)
| PFloat (f : float)
| PComplex (re im : float)
| PStr (s : string)
| PList (l : list pyval)
| PDict (d : gmap string pyval).

Definition pyval_of_number (v : number) : pyval :=
  match v with
  | NInt z => PInt z
  | NBool b => PBool b
  | NFloat f => PFloat f
  | NComplex re im => PComplex re im
  end.

(** ** The syntax trees of Python's [ast] module *)

Module ast.

Inductive operator : Type :=
| Add | Sub | Mult | MatMult | Div | Mod | Pow
| LShift | RShift | BitOr | BitXor | BitAnd | FloorDiv.

Inductive unaryop : Type := Invert | Not | UAdd | USub.

Inductive cmpop : Type := Eq | NotEq | Lt | LtE | Gt | GtE.

(** The value of an [ast.Constant]. *)
Inductive constant : Type :=
| CInt (z : Z)
| CFloat (f : float)
| CComplex (re im : float)
| CBool (b : bool)
| CStr (s : string)
| CBytes (s : string)
| CNone
| CEllipsis.

(** Expression nodes.  [Other] stands for every node class that the
    evaluator does not name (BoolOp, Subscript, Lambda, IfExp, NamedExpr,
    Tuple, List, ...). *)
Inductive AST : Type :=
| Expression (body : AST)
| Constant (value : constant)
| BinOp (left : AST) (op : operator) (right : AST)
| UnaryOp (op : unaryop) (operand : AST)
| Name (id : string)
| Call (func : AST) (args : list AST)
| Attribute (value : AST) (attr : string)
| Compare (left : AST) (ops : list cmpop) (comparators : list AST)
| Other (kind : string) (children : list AST).

End ast.

(** ** The host interpreter *)

(** What the model takes from the interpreter as it is:
    - [host_parse]: [ast.parse(expr, mode="eval")] on text outside the
      grammar fragment of [ast_parse_fragment];
    - [host_float_pow]: [float.__pow__], which rests on the C library;
    - [host_complex_op]: arithmetic on two [complex] operands;
    - [host_str]: [str(x)] of an object that is not a [str]. *)
Record Host : Type := {
  host_parse : string -> result ast.AST;
  host_float_pow : float -> float -> result number;
  host_complex_op : ast.operator -> float * float -> float * float -> result number;
  host_str : pyval -> string;
}.

(** ** Arithmetic of the [operator] module *)

Section Operators.
Variable h : Host.

Definition Z_of_bool (b : bool) : Z := if b then 1 else 0.

(** An [int] or a [bool] as an integer. *)
Definition as_int (v : number) : option Z :=
  match v with
  | NInt z => Some z
  | NBool b => Some (Z_of_bool b)
  | _ => None
  end.

(** A real operand converted to [float]. *)
Definition as_float (v : number) : result float :=
  match v with
  | NInt z => PyFloat.float_of_int z
  | NBool b => PyFloat.float_of_int (Z_of_bool b)
  | NFloat f => Val f
  | NComplex re _ => Val re
  end.

(** An operand converted to [complex]. *)
Definition as_complex (v : number) : result (float * float) :=
  match v with
  | NComplex re im => Val (re, im)
  | _ => re ← as_float v; Val (re, S754_zero false)
  end.

Definition is_complex (v : number) : bool :=
  match v with NComplex _ _ => true | _ => false end.

Definition int_op (op : ast.operator) (a b : Z) : result number :=
  match op with
  | ast.Add => Val (NInt (a + b))
  | ast.Sub => Val (NInt (a - b))
  | ast.Mult => Val (NInt (a * b))
  | ast.Div => NFloat <$> PyFloat.int_truediv a b
  | ast.FloorDiv =>
      if b =? 0 then Raise ZeroDivisionError else Val (NInt (a / b))
  | ast.Mod =>
      if b =? 0 then Raise ZeroDivisionError else Val (NInt (a mod b))
  | ast.Pow =>
      if 0 <=? b then Val (NInt (a ^ b))
      else
        fa ← PyFloat.float_of_int a;
        fb ← PyFloat.float_of_int b;
        host_float_pow h fa fb
  | _ => Raise TypeError
  end.

Definition float_op (op : ast.operator) (a b : float) : result number :=
  match op with
  | ast.Add => Val (NFloat (PyFloat.add a b))
  | ast.Sub => Val (NFloat (PyFloat.sub a b))
  | ast.Mult => Val (NFloat (PyFloat.mul a b))
  | ast.Div => NFloat <$> PyFloat.truediv a b
  | ast.FloorDiv => NFloat <$> PyFloat.floordiv a b
  | ast.Mod => NFloat <$> PyFloat.rem a b
  | ast.Pow => host_float_pow h a b
  | _ => Raise TypeError
  end.

Definition complex_op (op : ast.operator) (a b : number) : result number :=
  match op with
  | ast.FloorDiv | ast.Mod => Raise TypeError
  | _ =>
      ca ← as_complex a;
      cb ← as_complex b;
      host_complex_op h op ca cb
  end.

(** [operator.add], [operator.sub], ... on two numbers: integer arithmetic
    on two integers, otherwise float arithmetic after conversion, or complex
    arithmetic when an operand is complex. *)
Definition arith (op : ast.operator) (a b : number) : result number :=
  if is_complex a || is_complex b then complex_op op a b
  else
    match as_int a, as_int b with
    | Some x, Some y => int_op op x y
    | _, _ =>
        fa ← as_float a;
        fb ← as_float b;
        float_op op fa fb
    end.

(** [operator.pos]. *)
Definition operator_pos (v : number) : result number :=
  match v with
  | NBool b => Val (NInt (Z_of_bool b))
  | _ => Val v
  end.

(** [operator.neg]. *)
Definition operator_neg (v : number) : result number :=
  match v with
  | NInt z => Val (NInt (- z))
  | NBool b => Val (NInt (- Z_of_bool b))
  | NFloat f => Val (NFloat (PyFloat.neg f))
  | NComplex re im => Val (NComplex (PyFloat.neg re) (PyFloat.neg im))
  end.

(** The table [ALLOWED_BINOPS]: the operator classes that are keys, each
    with its function. *)
Definition ALLOWED_BINOPS (op : ast.operator)
  : option (number -> number -> result number) :=
  match op with
  | ast.Add | ast.Sub | ast.Mult | ast.Div
  | ast.FloorDiv | ast.Mod | ast.Pow => Some (arith op)
  | _ => None
  end.

(** The table [ALLOWED_UNARY]. *)
Definition ALLOWED_UNARY (op : ast.unaryop) : option (number -> result number) :=
  match op with
  | ast.UAdd => Some operator_pos
  | ast.USub => Some operator_neg
  | _ => None
  end.

(** [isinstance(n.value, (int, float))], with the value when it holds. *)
Definition int_or_float (c : ast.constant) : option number :=
  match c with
  | ast.CInt z => Some (NInt z)
  | ast.CBool b => Some (NBool b)
  | ast.CFloat f => Some (NFloat f)
  | _ => None
  end.

(** The inner function [_eval] of [safe_eval_expression]. *)
Fixpoint _eval (n : ast.AST) : result number :=
  match n with
  | ast.Expression body => _eval body
  | ast.Constant value =>
      match int_or_float value with
      | Some v => Val v
      | None => Raise ValueError
      end
  | ast.BinOp n_left op n_right =>
      match ALLOWED_BINOPS op with
      | None => Raise ValueError
      | Some f =>
          left ← _eval n_left;
          right ← _eval n_right;
          f left right
      end
  | ast.UnaryOp op operand =>
      match ALLOWED_UNARY op with
      | None => Raise ValueError
      | Some f =>
          v ← _eval operand;
          f v
      end
  | _ => Raise ValueError
  end.

End Operators.

(** ** A fragment of Python's expression grammar

    [ast.parse(expr, mode="eval")] on the text the classifier is asked to
    produce and on the specification's examples: decimal integers and
    point floats, names, [True], [False], [None], plain quoted strings, the
    arithmetic, bitwise and comparison operators, parentheses, attribute
    access and calls with positional arguments.  On any other text (other
    keywords, brackets, tuples, starred arguments, exponents and prefixes in
    literals, escapes, comments, line breaks, non-ASCII characters) the
    fragment answers [None] and the host's parser decides. *)

Module grammar.

Import PyStr.

Inductive token : Type :=
| TAtom (c : ast.constant)
| TStr (s : string)
| TName (s : string)
| TBin (op : ast.operator)
| TPlus
| TMinus
| TTilde
| TCmp (c : ast.cmpop)
| TLPar
| TRPar
| TComma
| TDot.

(** *** The tokenizer *)

Definition is_blank (c : ascii) : bool :=
  ((code c =? 32) || (code c =? 9) || (code c =? 12))%N.

Definition is_alpha (c : ascii) : bool :=
  (((65 <=? code c) && (code c <=? 90))
   || ((97 <=? code c) && (code c <=? 122))
   || (code c =? 95))%N.

Definition is_alnum (c : ascii) : bool := is_alpha c || is_digit c.

Definition is_quote (c : ascii) : bool :=
  ((code c =? 39) || (code c =? 34))%N.

Fixpoint span (p : ascii -> bool) (l : list ascii) : list ascii * list ascii :=
  match l with
  | c :: l' =>
      if p c then let '(a, b) := span p l' in (c :: a, b) else ([], l)
  | [] => ([], [])
  end.

Definition starts_with (p : ascii -> bool) (l : list ascii) : bool :=
  match l with c :: _ => p c | [] => false end.

Definition digits_val (ds : list ascii) : Z :=
  fold_left (fun acc c => 10 * acc + digit_val c) ds 0.

(** A decimal integer literal may not start with a zero unless it is all
    zeros. *)
Definition leading_zero (ds : list ascii) : bool :=
  match ds with
  | c :: _ :: _ => ascii_eqb c "0" && negb (digits_val ds =? 0)
  | _ => false
  end.

(** The hard keywords other than [True], [False] and [None]. *)
Definition keywords : list string :=
  ["and"; "as"; "assert"; "async"; "await"; "break"; "class"; "continue";
   "def"; "del"; "elif"; "else"; "except"; "finally"; "for"; "from";
   "global"; "if"; "import"; "in"; "is"; "lambda"; "nonlocal"; "not"; "or";
   "pass"; "raise"; "return"; "try"; "while"; "with"; "yield"].

Definition is_keyword (s : string) : bool :=
  existsb (String.eqb s) keywords.

Definition cons_tok (t : token) (r : option (result (list token)))
  : option (result (list token)) :=
  match r with
  | Some (Val ts) => Some (Val (t :: ts))
  | _ => r
  end.

(** The body of a quoted string up to the closing quote [q]: [None] when
    the host must decide (an escape or a line break), [Some None] when the
    string is not closed. *)
Fixpoint string_body (q : ascii) (l : list ascii)
  : option (option (list ascii * list ascii)) :=
  match l with
  | [] => Some None
  | c :: l' =>
      if ascii_eqb c q then Some (Some ([], l'))
      else if ((code c =? 92) || (code c =? 10) || (code c =? 13))%N then None
      else
        match string_body q l' with
        | Some (Some (a, b)) => Some (Some (c :: a, b))
        | r => r
        end
  end.

Definition float_token (ds fs : list ascii) : token :=
  TAtom (ast.CFloat
           (PyFloat.of_decimal (digits_val (ds ++ fs)) (Z.of_nat (List.length fs)))).

Fixpoint lex (fuel : nat) (l : list ascii) : option (result (list token)) :=
  match fuel with
  | O => None
  | S f =>
      match l with
      | [] => Some (Val [])
      | c :: l' =>
          if is_blank c then lex f l'
          else if is_digit c then
            let '(ds, r) := span is_digit l in
            match r with
            | "."%char :: r1 =>
                let '(fs, r2) := span is_digit r1 in
                if starts_with is_alpha r2 then None
                else cons_tok (float_token ds fs) (lex f r2)
            | _ =>
                if starts_with is_alpha r then None
                else if leading_zero ds then Some (Raise SyntaxError)
                else cons_tok (TAtom (ast.CInt (digits_val ds))) (lex f r)
            end
          else if ascii_eqb c "." then
            if starts_with is_digit l' then
              let '(fs, r2) := span is_digit l' in
              if starts_with is_alpha r2 then None
              else cons_tok (float_token [] fs) (lex f r2)
            else if starts_with (ascii_eqb ".") l' then None
            else cons_tok TDot (lex f l')
          else if is_alpha c then
            let '(nm, r) := span is_alnum l in
            let s := of_chars nm in
            if starts_with is_quote r then None
            else if is_keyword s then None
            else if String.eqb s "True" then cons_tok (TAtom (ast.CBool true)) (lex f r)
            else if String.eqb s "False" then cons_tok (TAtom (ast.CBool false)) (lex f r)
            else if String.eqb s "None" then cons_tok (TAtom ast.CNone) (lex f r)
            else cons_tok (TName s) (lex f r)
          else if is_quote c then
            match string_body c l' with
            | None => None
            | Some None => Some (Raise SyntaxError)
            | Some (Some (body, r)) =>
                match body, r with
                | [], q :: _ =>
                    if ascii_eqb q c then None
                    else cons_tok (TStr "") (lex f r)
                | _, _ => cons_tok (TStr (of_chars body)) (lex f r)
                end
            end
          else
            let two (p : ascii -> bool) := starts_with p l' in
            let eq1 (a : ascii) := ascii_eqb c a in
            if eq1 "+"%char then cons_tok TPlus (lex f l')
            else if eq1 "-"%char then cons_tok TMinus (lex f l')
            else if eq1 "~"%char then cons_tok TTilde (lex f l')
            else if eq1 "*"%char then
              if two (ascii_eqb "*") then cons_tok (TBin ast.Pow) (lex f (tl l'))
              else cons_tok (TBin ast.Mult) (lex f l')
            else if eq1 "/"%char then
              if two (ascii_eqb "/") then cons_tok (TBin ast.FloorDiv) (lex f (tl l'))
              else cons_tok (TBin ast.Div) (lex f l')
            else if eq1 "%"%char then cons_tok (TBin ast.Mod) (lex f l')
            else if eq1 "@"%char then cons_tok (TBin ast.MatMult) (lex f l')
            else if eq1 "&"%char then cons_tok (TBin ast.BitAnd) (lex f l')
            else if eq1 "|"%char then cons_tok (TBin ast.BitOr) (lex f l')
            else if eq1 "^"%char then cons_tok (TBin ast.BitXor) (lex f l')
            else if eq1 "<"%char then
              if two (ascii_eqb "<") then cons_tok (TBin ast.LShift) (lex f (tl l'))
              else if two (ascii_eqb "=") then cons_tok (TCmp ast.LtE) (lex f (tl l'))
              else cons_tok (TCmp ast.Lt) (lex f l')
            else if eq1 ">"%char then
              if two (ascii_eqb ">") then cons_tok (TBin ast.RShift) (lex f (tl l'))
              else if two (ascii_eqb "=") then cons_tok (TCmp ast.GtE) (lex f (tl l'))
              else cons_tok (TCmp ast.Gt) (lex f l')
            else if eq1 "="%char then
              if two (ascii_eqb "=") then cons_tok (TCmp ast.Eq) (lex f (tl l'))
              else None
            else if eq1 "!"%char then
              if two (ascii_eqb "=") then cons_tok (TCmp ast.NotEq) (lex f (tl l'))
              else None
            else if eq1 "("%char then cons_tok TLPar (lex f l')
            else if eq1 ")"%char then cons_tok TRPar (lex f l')
            else if eq1 ","%char then cons_tok TComma (lex f l')
            else None
      end
  end.

(** The tokens of a text; a text that starts with a blank is left to the
    host (an indentation error). *)
Definition tokenize (s : string) : option (result (list token)) :=
  let l := chars s in
  if starts_with is_blank l then None else lex (S (List.length l)) l.

(** *** The parser

    Recursive descent along Python's grammar: comparison, the bitwise
    levels, shifts, sums, terms, factors (unary operators), power, primaries
    (attribute access and calls) and atoms.  [fuel] bounds the recursion
    depth; a parse that runs out of it is left to the host. *)

Inductive parse (A : Type) : Type :=
| Ok (a : A)
| Err
| Defer.
Arguments Ok {A} a.
Arguments Err {A}.
Arguments Defer {A}.

#[global] Instance parse_mbind : MBind parse := fun A B k m =>
  match m with
  | Ok a => k a
  | Err => Err
  | Defer => Defer
  end.

(** Adjacent string literals are one constant. *)
Fixpoint strings (acc : string) (ts : list token) : string * list token :=
  match ts with
  | TStr s :: r => strings (acc +:+ s) r
  | _ => (acc, ts)
  end.

(** The binary operators of each level, loosest first: 0 is [|], 1 is [^],
    2 is [&], 3 the shifts, 4 the sums, 5 the terms. *)
Definition binop_at (lvl : nat) (t : token) : option ast.operator :=
  match lvl, t with
  | 0%nat, TBin ast.BitOr => Some ast.BitOr
  | 1%nat, TBin ast.BitXor => Some ast.BitXor
  | 2%nat, TBin ast.BitAnd => Some ast.BitAnd
  | 3%nat, TBin ast.LShift => Some ast.LShift
  | 3%nat, TBin ast.RShift => Some ast.RShift
  | 4%nat, TPlus => Some ast.Add
  | 4%nat, TMinus => Some ast.Sub
  | 5%nat, TBin ast.Mult => Some ast.Mult
  | 5%nat, TBin ast.Div => Some ast.Div
  | 5%nat, TBin ast.FloorDiv => Some ast.FloorDiv
  | 5%nat, TBin ast.Mod => Some ast.Mod
  | 5%nat, TBin ast.MatMult => Some ast.MatMult
  | _, _ => None
  end.

Definition term_level : nat := 5.

Fixpoint p_atom (fuel : nat) (ts : list token) {struct fuel}
  : parse (ast.AST * list token) :=
  match fuel with
  | O => Defer
  | S f =>
      match ts with
      | TAtom c :: r => Ok (ast.Constant c, r)
      | TStr s :: r =>
          let '(s', r') := strings s r in Ok (ast.Constant (ast.CStr s'), r')
      | TName x :: r => Ok (ast.Name x, r)
      | TLPar :: TRPar :: _ => Defer
      | TLPar :: r =>
          '(e, r') ← p_expr f r;
          match r' with
          | TRPar :: r'' => Ok (e, r'')
          | TComma :: _ => Defer
          | _ => Err
          end
      | TBin ast.Mult :: _ | TBin ast.Pow :: _ => Defer
      | _ => Err
      end
  end
with p_trailers (fuel : nat) (a : ast.AST) (ts : list token) {struct fuel}
  : parse (ast.AST * list token) :=
  match fuel with
  | O => Defer
  | S f =>
      match ts with
      | TDot :: TName x :: r => p_trailers f (ast.Attribute a x) r
      | TDot :: _ => Err
      | TLPar :: r =>
          '(args, r') ← p_args f r;
          p_trailers f (ast.Call a args) r'
      | _ => Ok (a, ts)
      end
  end
with p_args (fuel : nat) (ts : list token) {struct fuel}
  : parse (list ast.AST * list token) :=
  match fuel with
  | O => Defer
  | S f =>
      match ts with
      | TRPar :: r => Ok ([], r)
      | _ =>
          '(e, r) ← p_expr f ts;
          match r with
          | TComma :: r' =>
              '(es, r'') ← p_args f r';
              Ok (e :: es, r'')
          | TRPar :: r' => Ok ([e], r')
          | _ => Err
          end
      end
  end
with p_power (fuel : nat) (ts : list token) {struct fuel}
  : parse (ast.AST * list token) :=
  match fuel with
  | O => Defer
  | S f =>
      '(a, r) ← p_atom f ts;
      '(a, r) ← p_trailers f a r;
      match r with
      | TBin ast.Pow :: r' =>
          '(b, r'') ← p_factor f r';
          Ok (ast.BinOp a ast.Pow b, r'')
      | _ => Ok (a, r)
      end
  end
with p_factor (fuel : nat) (ts : list token) {struct fuel}
  : parse (ast.AST * list token) :=
  match fuel with
  | O => Defer
  | S f =>
      match ts with
      | TPlus :: r =>
          '(e, r') ← p_factor f r; Ok (ast.UnaryOp ast.UAdd e, r')
      | TMinus :: r =>
          '(e, r') ← p_factor f r; Ok (ast.UnaryOp ast.USub e, r')
      | TTilde :: r =>
          '(e, r') ← p_factor f r; Ok (ast.UnaryOp ast.Invert e, r')
      | _ => p_power f ts
      end
  end
with p_level (fuel : nat) (lvl : nat) (ts : list token) {struct fuel}
  : parse (ast.AST * list token) :=
  match fuel with
  | O => Defer
  | S f =>
      '(a, r) ← (if Nat.leb term_level lvl then p_factor f ts
                  else p_level f (S lvl) ts);
      p_loop f lvl a r
  end
with p_loop (fuel : nat) (lvl : nat) (a : ast.AST) (ts : list token) {struct fuel}
  : parse (ast.AST * list token) :=
  match fuel with
  | O => Defer
  | S f =>
      match ts with
      | t :: r =>
          match binop_at lvl t with
          | Some op =>
              '(b, r') ← (if Nat.leb term_level lvl then p_factor f r
                           else p_level f (S lvl) r);
              p_loop f lvl (ast.BinOp a op b) r'
          | None => Ok (a, ts)
          end
      | [] => Ok (a, [])
      end
  end
with p_cmp (fuel : nat) (a : ast.AST) (ops : list ast.cmpop)
       (cs : list ast.AST) (ts : list token) {struct fuel}
  : parse (ast.AST * list token) :=
  match fuel with
  | O => Defer
  | S f =>
      match ts with
      | TCmp c :: r =>
          '(b, r') ← p_level f 0 r;
          p_cmp f a (ops ++ [c]) (cs ++ [b]) r'
      | _ =>
          Ok (match ops with [] => a | _ => ast.Compare a ops cs end, ts)
      end
  end
with p_expr (fuel : nat) (ts : list token) {struct fuel}
  : parse (ast.AST * list token) :=
  match fuel with
  | O => Defer
  | S f =>
      '(a, r) ← p_level f 0 ts;
      p_cmp f a [] [] r
  end.

Definition parse_fuel (ts : list token) : nat := 16 * List.length ts + 16.

(** A whole token list as an expression: the [ast.Expression] that
    [ast.parse] returns in ["eval"] mode. *)
Definition parse_tokens (ts : list token) : parse ast.AST :=
  '(e, r) ← p_expr (parse_fuel ts) ts;
  match r with
  | [] => Ok (ast.Expression e)
  | TComma :: _ => Defer
  | _ => Err
  end.

(** The fragment's answer: [None] when the host decides. *)
Definition ast_parse_fragment (expr : string) : option (result ast.AST) :=
  match tokenize expr with
  | None => None
  | Some (Raise e) => Some (Raise e)
  | Some (Val ts) =>
      match parse_tokens ts with
      | Ok n => Some (Val n)
      | Err => Some (Raise SyntaxError)
      | Defer => None
      end
  end.

End grammar.

(** ** [safe_eval_expression] *)

(** [ast.parse(expr, mode="eval")]. *)
Definition ast_parse (h : Host) (expr : string) : result ast.AST :=
  match grammar.ast_parse_fragment expr with
  | Some r => r
  | None => host_parse h expr
  end.

Definition safe_eval_expression (h : Host) (expr : string) : result number :=
  node ← ast_parse h expr;
  _eval h node.

(** ** Counting: jumps and time *)

(** [range(a, b)]. *)
Definition range (a b : Z) : list Z := seqZ a (b - a).

(** [seq[-1]] of a list that is not empty. *)
Definition last_item (l : list Z) : Z := List.last l 0.

(** [build_count_sequence(n)]: [(step_size, sequence_list, is_impossible)]. *)
Definition build_count_sequence (n : Z) : Z * list Z * bool :=
  if n <=? 0 then (0, [], true)
  else if n <=? 10 then (1, range 1 (n + 1), false)
  else
    let step := Z.max (n / 10) 1 in
    let seq := map (fun i => step * i) (range 1 10) in
    let seq := if negb (last_item seq =? n) then (seq ++ [n])%list else seq in
    (step, seq, false).

(** [x / c] for a float [x] and a float constant of integral value [c]. *)
Definition div_by (x : float) (c : Z) : float := PyFloat.div x (PyFloat.of_Z c).

(** [f"about {round(x)} {unit}"]. *)
Definition about_rounded (x : float) (unit : string) : result string :=
  r ← PyFloat.round x;
  Val ("about " +:+ PyStr.of_int r +:+ " " +:+ unit).

(** [estimate_count_time(num)]: [(seconds, human_readable_text)]. *)
Definition estimate_count_time (num : Z) : result (Z * string) :=
  let seconds := num in
  if seconds <=? 120 then
    Val (seconds, "about " +:+ PyStr.of_int seconds +:+ " seconds")
  else
    fseconds ← PyFloat.float_of_int seconds;
    let minutes := div_by fseconds 60 in
    if PyFloat.lt_int minutes 60 then
      pair seconds <$> about_rounded minutes "minutes"
    else
      let hours := div_by minutes 60 in
      if PyFloat.lt_int hours 48 then
        pair seconds <$> about_rounded hours "hours"
      else
        let days := div_by hours 24 in
        if PyFloat.lt_int days (365 * 2) then
          pair seconds <$> about_rounded days "days"
        else
          let years := div_by days 365 in
          if PyFloat.lt_int years 1000 then
            pair seconds <$> about_rounded years "years"
          else if PyFloat.lt_int years 1000000 then
            pair seconds <$> about_rounded (div_by years 1000) "thousand years"
          else if PyFloat.lt_int years 1000000000 then
            pair seconds <$> about_rounded (div_by years 1000000) "million years"
          else
            Val (seconds, "longer than the age of the universe").

(** ** [apply_math_logic] *)

Abbreviation dict := (gmap string pyval).

(** [d.get(k)]. *)
Definition py_get (d : dict) (k : string) : pyval := default PNone (d !! k).

(** [d.setdefault(k, v)], for its effect on [d]. *)
Definition setdefault (k : string) (v : pyval) (d : dict) : dict :=
  match d !! k with
  | Some _ => d
  | None => <[k := v]> d
  end.

(** Truth value of an object. *)
Definition truthy (v : pyval) : bool :=
  match v with
  | PNone => false
  | PBool b => b
  | PInt z => negb (z =? 0)
  | PFloat f => negb (PyFloat.is_zero f)
  | PComplex re im => negb (PyFloat.is_zero re && PyFloat.is_zero im)
  | PStr s => negb (String.eqb s "")
  | PList l => match l with [] => false | _ => true end
  | PDict d => negb (bool_decide (d = ∅))
  end.

(** [a or b]. *)
Definition py_or (a b : pyval) : pyval := if truthy a then a else b.

(** A method of [str] called on an object: only a [str] has it. *)
Definition str_method (f : string -> string) (v : pyval) : result string :=
  match v with
  | PStr s => Val (f s)
  | _ => Raise AttributeError
  end.

(** The object on which [.get] and [.setdefault] are called: only a [dict]
    has them. *)
Definition as_dict (v : pyval) : result dict :=
  match v with
  | PDict d => Val d
  | _ => Raise AttributeError
  end.

(** [int(x)]. *)
Definition py_int (v : pyval) : result Z :=
  match v with
  | PBool b => Val (Z_of_bool b)
  | PInt z => Val z
  | PFloat f => PyFloat.to_int f
  | PStr s =>
      match PyStr.to_int s with
      | Some z => Val z
      | None => Raise ValueError
      end
  | _ => Raise TypeError
  end.

Definition apology_screen : string := "I couldn't understand that math problem.".
Definition apology_text : string :=
  "I couldn't quite figure out that math problem, but we can try another one!".

(** The eight [logic.setdefault] calls. *)
Definition with_defaults (logic : dict) : dict :=
  let logic := setdefault "target_number" PNone logic in
  let logic := setdefault "is_impossible" (PBool false) logic in
  let logic := setdefault "step_size" PNone logic in
  let logic := setdefault "unit" PNone logic in
  let logic := setdefault "sequence" (PList []) logic in
  let logic := setdefault "time_estimate_seconds" PNone logic in
  let logic := setdefault "time_estimate_text" PNone logic in
  setdefault "visual_aid" PNone logic.

(** The two failure branches of CALCULATE (the same assignments). *)
Definition calculate_failed (data logic : dict) : dict :=
  let logic := <["is_impossible" := PBool true]> logic in
  let logic := <["sequence" := PList []]> logic in
  let data := <["screen" := PStr apology_screen]> data in
  let data := <["text" := PStr apology_text]> data in
  <["_math_logic" := PDict logic]> data.

(** The two failure branches of COUNT. *)
Definition count_failed (data logic : dict) : dict :=
  let logic := <["is_impossible" := PBool true]> logic in
  let logic := <["sequence" := PList []]> logic in
  let data := <["screen" := PStr ""]> data in
  <["_math_logic" := PDict logic]> data.

(** [result = int(result)] when the result is a float of integral value. *)
Definition normalize_result (v : number) : number :=
  match v with
  | NFloat f =>
      if PyFloat.is_integer f then
        match PyFloat.to_int f with
        | Val z => NInt z
        | Raise _ => v
        end
      else v
  | _ => v
  end.

(** The screen text of a result: [f"{result:,}"] for an [int] (a [bool] is
    one), [f"{result:.4f}".rstrip("0").rstrip(".")] otherwise. *)
Definition result_screen (v : number) : string :=
  match v with
  | NInt z => PyStr.grouped z
  | NBool b => PyStr.grouped (Z_of_bool b)
  | NFloat f => PyStr.rstrip "." (PyStr.rstrip "0" (PyStr.fixed4 f))
  | NComplex re im => PyStr.rstrip "." (PyStr.rstrip "0" (PyStr.fixed4_complex re im))
  end.

Definition calculate_succeeded (data logic : dict) (spoken_problem : string)
    (result0 : number) : dict :=
  let result := normalize_result result0 in
  let logic := <["target_number" := pyval_of_number result]> logic in
  let logic := <["is_impossible" := PBool false]> logic in
  let logic := <["sequence" := PList [pyval_of_number result]]> logic in
  let screen := result_screen result in
  let data := <["screen" := PStr screen]> data in
  let data :=
    <["text" := PStr ("You asked what " +:+ spoken_problem +:+ " is. The answer is "
                      +:+ screen +:+ ".")]> data in
  <["_math_logic" := PDict logic]> data.

Section Reconcile.
Variable h : Host.

(** [f"{x}"] of an object. *)
Definition format_obj (v : pyval) : string :=
  match v with
  | PStr s => s
  | _ => host_str h v
  end.

(** The COUNT branch after [n = int(target)] succeeded with [n > 0]. *)
Definition count_succeeded (data logic : dict) (n : Z) : result dict :=
  let '(step_size, seq, is_impossible) := build_count_sequence n in
  let logic := <["step_size" := PInt step_size]> logic in
  let logic := <["sequence" := PList (PInt <$> seq)]> logic in
  let logic := <["is_impossible" := PBool is_impossible]> logic in
  let logic := <["target_number" := PInt n]> logic in
  '(seconds, time_text) ← estimate_count_time n;
  let logic := <["time_estimate_seconds" := PInt seconds]> logic in
  let logic := <["time_estimate_text" := PStr time_text]> logic in
  let digits_for_voice :=
    if n <=? 10 then PyStr.of_int <$> seq else PyStr.grouped <$> seq in
  let screen := PyStr.join ", " digits_for_voice in
  let data := <["screen" := PStr screen]> data in
  let unit := py_get logic "unit" in
  let target_digits := PyStr.grouped n in
  intro ←
    (if truthy unit then
       plural_unit ←
         (if n =? 1 then Val unit
          else match unit with
               | PStr u => Val (PStr (u +:+ "s"))
               | _ => Raise TypeError
               end);
       Val ("Let's jump up to " +:+ target_digits +:+ " "
            +:+ format_obj plural_unit +:+ ".")
     else Val ("Let's jump up to " +:+ target_digits +:+ "."));
  let jumps_phrase := PyStr.join ", " digits_for_voice in
  let jumps_line := " Our ten jumps are: " +:+ jumps_phrase +:+ "." in
  let time_line :=
    " If you counted by ones, it would take " +:+ time_text +:+ "." in
  let data := <["text" := PStr (intro +:+ jumps_line +:+ time_line)]> data in
  Val (<["_math_logic" := PDict logic]> data).

(** [apply_math_logic(data, transcript)]; [Val None] is Python's [None],
    what a function returns when it ends without a [return]. *)
Definition apply_math_logic (data : dict) (transcript : string)
  : result (option dict) :=
  logic ← as_dict (py_or (py_get data "_math_logic") (PDict ∅));
  intent ← str_method PyStr.upper (py_or (py_get logic "intent") (PStr ""));
  let logic := with_defaults logic in
  if String.eqb intent "CALCULATE" then
    expr ← str_method PyStr.strip (py_or (py_get logic "expression") (PStr ""));
    spoken_problem ←
      str_method PyStr.strip (py_or (py_get logic "spoken_problem") (PStr transcript));
    if String.eqb expr "" then Val (Some (calculate_failed data logic))
    else
      match safe_eval_expression h expr with
      | Raise _ => Val (Some (calculate_failed data logic))
      | Val result => Val (Some (calculate_succeeded data logic spoken_problem result))
      end
  else if String.eqb intent "COUNT" then
    let target := py_get logic "target_number" in
    match py_int target with
    | Raise _ => Val (Some (count_failed data logic))
    | Val n =>
        if n <=? 0 then Val (Some (count_failed data logic))
        else Some <$> count_succeeded data logic n
    end
  else Val None.

End Reconcile.

(** ** The routes [chat] and [speak] *)

(** What a route can fail with: an exception of the interpreter, or one of
    a client library (named by its class). *)
Inductive failure : Type :=
| PyError (e : exn)
| ClientError (name : string).

Inductive outcome (A : Type) : Type :=
| Done (a : A)
| Failed (e : failure).
Arguments Done {A} a.
Arguments Failed {A} e.

(** A chat message: role and content. *)
Definition message : Type := string * string.

(** The calls to the OpenAI client that [chat] can make, with the
    arguments that vary:
    [client.audio.transcriptions.create(model, file, response_format="text")]
    and [client.chat.completions.create(model, messages,
    response_format={"type": "json_object"}, temperature=0.2)]. *)
Inductive call : Type :=
| transcriptions_create (model file_name file : string)
| completions_create (model : string) (messages : list message).

(** A computation that calls the client: the calls made, in order, and how
    it ends. *)
Definition io (A : Type) : Type := list call * outcome A.

#[global] Instance io_ret : MRet io := fun A a => ([], Done a).
#[global] Instance io_bind : MBind io := fun A B f m =>
  match m with
  | (calls, Done a) => let '(calls', r) := f a in ((calls ++ calls')%list, r)
  | (calls, Failed e) => (calls, Failed e)
  end.

(** One call and the client's answer to it. *)
Definition request {A} (c : call) (answer : outcome A) : io A := ([c], answer).

(** A computation of the interpreter inside a route. *)
Definition lift {A} (r : result A) : io A :=
  match r with
  | Val a => ([], Done a)
  | Raise e => ([], Failed (PyError e))
  end.

(** The client and the [json] module:
    - [transcription]: the [str] the transcription returns;
    - [completion]: [completion.choices[0].message.content] of the chat
      completion, a [str] or [None];
    - [json_loads]: [json.loads], [None] when it raises;
    - [json_dumps]: [json.dumps(..., ensure_ascii=False)]. *)
Record Services : Type := {
  transcription : string -> string -> string -> outcome string;
  completion : string -> list message -> outcome pyval;
  json_loads : string -> option pyval;
  json_dumps : pyval -> string;
}.

(** The module's globals that the routes read, as the import leaves
    them. *)
Record Globals : Type := {
  BASE_PROMPT : string;
  REFERENCE_DATA : pyval;
  MODEL_NAME : string;
  TTS_MODEL : string;
  VOICE_NAME : string;
  TRANSCRIBE_MODEL : string;
}.

(** The body of a streaming response: [iter(())], or the generator
    [audio_stream()], which calls
    [client.audio.speech.with_streaming_response.create(model, voice, input)]
    and yields its chunks when the framework consumes it, after the route
    has returned. *)
Inductive stream : Type :=
| no_chunks
| audio_stream (model voice input : string).

(** The responses of the routes: [JSONResponse c s] is the call
    [JSONResponse(c, status_code=s)] that the route returns and
    [StreamingResponse b m s] the call
    [StreamingResponse(b, media_type=m, status_code=s)] (status 200 when the
    source gives none).  The framework renders [c] as JSON. *)
Inductive response : Type :=
| JSONResponse (content : pyval) (status_code : Z)
| StreamingResponse (body : stream) (media_type : string) (status_code : Z).

Section Routes.
Variable g : Globals.
Variable s : Services.
Variable h : Host.

(** [transcribe_audio(audio_bytes)]. *)
Definition transcribe_audio (audio_bytes : string) : io string :=
  result ←
    request (transcriptions_create (TRANSCRIBE_MODEL g) "audio.webm" audio_bytes)
      (transcription s (TRANSCRIBE_MODEL g) "audio.webm" audio_bytes);
  mret (PyStr.strip result).

(** The record [call_brain] makes up when the reply is not JSON. *)
Definition unparsed_reply (raw : pyval) : dict :=
  <["text" := raw]>
    (<["screen" := PStr ""]>
       (<["visual_aid" := PNone]>
          (<["_math_logic" :=
               PDict (<["intent" := PStr "SMALL_TALK"]>
                        (<["target_number" := PNone]>
                           (<["is_impossible" := PBool false]>
                              (<["step_size" := PNone]>
                                 (<["unit" := PNone]>
                                    (<["sequence" := PList []]>
                                       (<["time_estimate_seconds" := PNone]>
                                          (<["time_estimate_text" := PNone]>
                                             (<["visual_aid" := PNone]> ∅)))))))))]>
             ∅))).

(** The messages of [call_brain]. *)
Definition brain_messages (user_text : string) : list message :=
  let messages := [("system", BASE_PROMPT g)] in
  let messages :=
    if truthy (REFERENCE_DATA g) then
      (messages
       ++ [("system",
            json_dumps s (PDict (<["reference_data" := REFERENCE_DATA g]> ∅)))])%list
    else messages in
  (messages ++ [("user", user_text)])%list.

(** [call_brain(user_text)]. *)
Definition call_brain (user_text : string) : io pyval :=
  let messages := brain_messages user_text in
  raw ← request (completions_create (MODEL_NAME g) messages)
          (completion s (MODEL_NAME g) messages);
  let parsed :=
    match raw with
    | PStr text => json_loads s text
    | _ => None
    end in
  mret (match parsed with
        | Some data => data
        | None => PDict (unparsed_reply raw)
        end).

(** [{"error": msg, "user_text": ""}]. *)
Definition error_content (msg : string) : pyval :=
  PDict (<["error" := PStr msg]> (<["user_text" := PStr ""]> ∅)).

(** [l] starts with [p]; [p] occurs in [l]. *)
Fixpoint is_prefix (p l : list ascii) : bool :=
  match p, l with
  | [], _ => true
  | a :: p', b :: l' => PyStr.ascii_eqb a b && is_prefix p' l'
  | _ :: _, [] => false
  end.

Fixpoint occurs (p l : list ascii) : bool :=
  is_prefix p l || match l with [] => false | _ :: l' => occurs p l' end.

(** [p in s] for two strings. *)
Definition contains (p s : string) : bool :=
  occurs (PyStr.chars p) (PyStr.chars s).

(** [(body.get("text") or "").strip()] under [try], [""] on any
    exception; [None] is a body for which [request.json()] raises. *)
Definition body_text (body : option pyval) : string :=
  match body with
  | None => ""
  | Some b =>
      match (d ← as_dict b;
             str_method PyStr.strip (py_or (py_get d "text") (PStr ""))) with
      | Val t => t
      | Raise _ => ""
      end
  end.

(** The end of [chat], from [if not user_text].  [apply_math_logic] fails
    on a reply that is not a [dict] (it has no [get]), and the assignment
    of [user_text] fails on [None]. *)
Definition chat_answer (user_text : string) : io response :=
  if String.eqb user_text "" then
    mret (JSONResponse (error_content "No text captured from audio") 400)
  else
    data ← call_brain user_text;
    data ← lift (d ← as_dict data; apply_math_logic h d user_text);
    match data with
    | None => lift (Raise TypeError)
    | Some d =>
        mret (JSONResponse (PDict (<["user_text" := PStr user_text]> d)) 200)
    end.

(** The route [chat].  Of the request it reads the header [content-type],
    the uploaded file (its bytes, [None] without a file) and the JSON
    body. *)
Definition chat (headers : gmap string string) (file : option string)
    (body : option pyval) : io response :=
  let content_type := default "" (headers !! "content-type") in
  if contains "multipart/form-data" content_type then
    match file with
    | None => mret (JSONResponse (error_content "No audio file provided") 400)
    | Some audio_bytes =>
        if String.eqb audio_bytes "" then
          mret (JSONResponse (error_content "Empty audio file") 400)
        else
          user_text ← transcribe_audio audio_bytes;
          chat_answer user_text
    end
  else chat_answer (body_text body).


End Routes.

(** * The vocabulary of the statements *)

(** ** The planner *)

(** The three components of a plan. *)
Definition plan_step (n : Z) : Z := fst (fst (build_count_sequence n)).

Definition plan_sequence (n : Z) : list Z := snd (fst (build_count_sequence n)).

Definition plan_impossible (n : Z) : bool := snd (build_count_sequence n).

(** The nine generated jumps of a target above ten. *)
Definition jumps (step : Z) : list Z := (fun i => step * i) <$> seqZ 1 9.

(** ** The estimator *)

(** The integer nearest to [n / d], ties to even ([d > 0]). *)
Definition round_half_even_div (n d : Z) : Z :=
  let q := n / d in
  match 2 * (n mod d) ?= d with
  | Lt => q
  | Gt => q + 1
  | Eq => if Z.even q then q else q + 1
  end.

(** The estimator returns [n] and the phrase [text n]. *)
Definition estimates_as (text : Z -> string) (n : Z) : bool :=
  match estimate_count_time n with
  | Val (s, t) => (s =? n) && String.eqb t (text n)
  | Raise _ => false
  end.

(** ** The evaluator *)









(** A host that offers nothing beyond the model: it parses no text outside
    the fragment and has no [pow] and no complex arithmetic.  It instantiates
    the statements below on concrete inputs; no statement depends on it. *)
Definition bare_host : Host := {|
  host_parse := fun _ => Raise SyntaxError;
  host_float_pow := fun _ _ => Raise OverflowError;
  host_complex_op := fun _ _ _ => Raise TypeError;
  host_str := fun _ => "";
|}.

(** ** Operator precedence *)







(** ** The reconciliation *)

(** The [_math_logic] object of a returned record. *)
Definition math_logic (out : dict) : dict :=
  match out !! "_math_logic" with
  | Some (PDict l) => l
  | _ => ∅
  end.

(** How [apply_math_logic] reads the classifier's record: [logic] is the
    object under ["_math_logic"] and [intent] its upper-cased intent. *)
Definition classified (data logic : dict) (intent : string) : Prop :=
  as_dict (py_or (py_get data "_math_logic") (PDict ∅)) = Val logic
  /\ str_method PyStr.upper (py_or (py_get logic "intent") (PStr "")) = Val intent.

(** A hint read as a stripped string: [(logic.get(key) or dflt).strip()]. *)
Definition hint (logic : dict) (key dflt : string) : result string :=
  str_method PyStr.strip (py_or (py_get logic key) (PStr dflt)).

(** The COUNT branch gives up on this target: [int(target)] raises, or its
    value is not positive. *)
Definition count_rejects (target : pyval) : bool :=
  match py_int target with
  | Raise _ => true
  | Val n => n <=? 0
  end.

(** The keys of the eight [setdefault] calls. *)
Definition default_keys : list string :=
  ["target_number"; "is_impossible"; "step_size"; "unit"; "sequence";
   "time_estimate_seconds"; "time_estimate_text"; "visual_aid"].

(** The digits of the jumps as they are shown and spoken. *)
Definition jump_digits (n : Z) : list string :=
  if n <=? 10 then PyStr.of_int <$> plan_sequence n
  else PyStr.grouped <$> plan_sequence n.



(** [{"text": text, "screen": "", "_math_logic": logic}]. *)
Definition reply (text : string) (logic : dict) : dict :=
  <["text" := PStr text]> (<["screen" := PStr ""]> (<["_math_logic" := PDict logic]> ∅)).

(** Records of the classifier used as examples. *)
Definition small_talk_reply : dict :=
  reply "Hi there!" (<["intent" := PStr "SMALL_TALK"]> ∅).

Definition count_reply (target : pyval) : dict :=
  reply "Let's count!"
    (<["intent" := PStr "COUNT"]> (<["target_number" := target]> ∅)).

Definition calculate_reply (expression : string) (step_size : pyval) : dict :=
  reply "Let's figure it out."
    (<["intent" := PStr "CALCULATE"]>
       (<["expression" := PStr expression]>
          (<["spoken_problem" := PStr "that"]>
             (<["step_size" := step_size]> ∅)))).



(** ** Further vocabulary *)

(** *** The evaluator *)



(** A zero: [0], [False], [0.0] or [-0.0]. *)
Definition is_zero_number (v : number) : bool :=
  match v with
  | NInt z => z =? 0
  | NBool b => negb b
  | NFloat f => PyFloat.is_zero f
  | NComplex _ _ => false
  end.

(** The operators that divide: [/], [//] and [%]. *)
Definition division (op : ast.operator) : Prop :=
  op = ast.Div \/ op = ast.FloorDiv \/ op = ast.Mod.


(** *** The planner and the estimator *)

(** The lengths of the jumps of a sequence that starts from zero: each
    element minus the one before it. *)
Fixpoint jump_lengths (prev : Z) (l : list Z) : list Z :=
  match l with
  | [] => []
  | x :: l' => (x - prev) :: jump_lengths x l'
  end.

(** The phrase for a count of less than an hour. *)
Definition short_phrase (n : Z) : string :=
  if n <=? 120 then "about " +:+ PyStr.of_int n +:+ " seconds"
  else "about " +:+ PyStr.of_int (round_half_even_div n 60) +:+ " minutes".

(** *** The reconciliation *)

(** [isinstance(v, str)]. *)
Definition is_str (v : pyval) : bool :=
  match v with PStr _ => true | _ => false end.

(** [isinstance(v, dict)]. *)
Definition is_dict (v : pyval) : bool :=
  match v with PDict _ => true | _ => false end.

(** A value on which [(v or dflt).strip()] fails: it is kept by [or] and has
    no method [strip]. *)
Definition not_text (v : pyval) : bool := truthy v && negb (is_str v).

(** The keys of [_math_logic] that some branch assigns. *)
Definition computed_keys : list string :=
  ["target_number"; "is_impossible"; "sequence"; "step_size";
   "time_estimate_seconds"; "time_estimate_text"].

(** The opening sentence of the COUNT narration, as [count_succeeded]
    builds it from the unit and the target. *)
Definition count_intro (h : Host) (unit : pyval) (n : Z) : result string :=
  if truthy unit then
    plural_unit ←
      (if n =? 1 then Val unit
       else match unit with
            | PStr u => Val (PStr (u +:+ "s"))
            | _ => Raise TypeError
            end);
    Val ("Let's jump up to " +:+ PyStr.grouped n +:+ " "
         +:+ format_obj h plural_unit +:+ ".")
  else Val ("Let's jump up to " +:+ PyStr.grouped n +:+ ".").

(** The two closing sentences. *)
Definition count_closing (n : Z) (time_text : string) : string :=
  (" Our ten jumps are: " +:+ PyStr.join ", " (jump_digits n) +:+ ".")
  +:+ (" If you counted by ones, it would take " +:+ time_text +:+ ".").

(** The [_math_logic] object the COUNT branch leaves. *)
Definition count_logic (logic : dict) (n : Z) (time_text : string) : dict :=
  <["time_estimate_text" := PStr time_text]>
    (<["time_estimate_seconds" := PInt n]>
       (<["target_number" := PInt n]>
          (<["is_impossible" := PBool (plan_impossible n)]>
             (<["sequence" := PList (PInt <$> plan_sequence n)]>
                (<["step_size" := PInt (plan_step n)]> logic))))).

(** The record the COUNT branch returns. *)
Definition count_record (data logic : dict) (n : Z) (time_text intro : string)
  : dict :=
  <["_math_logic" := PDict (count_logic logic n time_text)]>
    (<["text" := PStr (intro +:+ count_closing n time_text)]>
       (<["screen" := PStr (PyStr.join ", " (jump_digits n))]> data)).

(** A CALCULATE record with a key of its own beside the three of the
    contract. *)
Definition visual_reply : dict :=
  <["visual_aid" := PStr "***"]>
    (reply "Let's see."
       (<["intent" := PStr "CALCULATE"]> (<["expression" := PStr "1 + 1"]> ∅))).

(** *** The routes *)

(** The calls of a run. *)
Definition calls {A} (m : io A) : list call := m.1.

(** The characters of a list without the trailing ones that satisfy
    [p]. *)
Definition rtrim (p : ascii -> bool) (l : list ascii) : list ascii :=
  rev (PyStr.drop_while p (rev l)).

(** A text that [strip] leaves empty. *)
Definition blank (t : string) : Prop := PyStr.strip t = "".

(** The JSON body gives no text. *)
Definition no_text (body : option pyval) : Prop :=
  body = None
  \/ (exists b, body = Some b /\ is_dict b = false)
  \/ (exists d, body = Some (PDict d)
                /\ (truthy (py_get d "text") = false
                    \/ not_text (py_get d "text") = true
                    \/ exists t, py_get d "text" = PStr t /\ blank t)).

(** Globals, a client and a request used as examples. *)
Definition plain_globals : Globals := {|
  BASE_PROMPT := "You are Number Bot.";
  REFERENCE_DATA := PDict ∅;
  MODEL_NAME := "gpt-4o";
  TTS_MODEL := "gpt-4o-mini-tts";
  VOICE_NAME := "nova";
  TRANSCRIBE_MODEL := "whisper-1";
|}.

(** A client that gives one answer to every completion, and a [json.loads]
    that reads it as [parsed]. *)
Definition scripted (answer : pyval) (parsed : option pyval) : Services := {|
  transcription := fun _ _ _ => Done "";
  completion := fun _ _ => Done answer;
  json_loads := fun _ => parsed;
  json_dumps := fun _ => "";
|}.

(** The JSON body [{"text": text}]. *)
Definition json_body (text : string) : option pyval :=
  Some (PDict (<["text" := PStr text]> ∅)).

(** ** Tactics *)

(** Case analysis on [k ∈ [a; b; ...]], and the proof of such a membership
    for a given key. *)
Ltac elem_cases Hk :=
  rewrite ?elem_of_cons, elem_of_nil in Hk;
  destruct_or! Hk; try done; subst.

Ltac elem_solve := apply (bool_decide_unpack _); by vm_compute.

(** The dispatch on the intent COUNT. *)
Ltac count_intent :=
  cbv zeta;
  change (String.eqb "COUNT" "CALCULATE") with false;
  change (String.eqb "COUNT" "COUNT") with true;
  cbv iota.


(** Equality of two maps built by insertions on the same map: by cases on
    the key. *)
Ltac by_key k :=
  repeat match goal with
         | |- context [<[?a := _]> _ !! k] =>
             lazymatch a with
             | k => fail
             | _ => destruct (decide (a = k)) as [<-|?];
                    [rewrite ?lookup_insert_eq|rewrite ?lookup_insert_ne by done]
             end
         end;
  try (by simplify_map_eq).

Ltac same_map := let k := fresh "k" in apply map_eq; intros k; by_key k.

(** * Properties *)

(** ** The planner: [build_count_sequence] *)

Lemma jumps_eq step :
  jumps step =
  [step * 1; step * 2; step * 3; step * 4; step * 5;
   step * 6; step * 7; step * 8; step * 9].
Proof. reflexivity. Qed.

Lemma last_item_jumps step : last_item (jumps step) = step * 9.
Proof. reflexivity. Qed.

Lemma step_above_ten n : 10 < n -> Z.max (n / 10) 1 = n / 10 /\ 1 <= n / 10.
Proof.
  intros Hn.
  assert (1 <= n / 10) by (apply Z.div_le_lower_bound; lia).
  split; [apply Z.max_l|]; lia.
Qed.

Lemma ninth_jump_below n : 10 < n -> (n / 10) * 9 < n.
Proof.
  intros Hn.
  pose proof (Z.mul_div_le n 10 ltac:(lia)).
  destruct (step_above_ten n Hn) as [_ ?]. lia.
Qed.

Lemma plan_above_ten n :
  10 < n ->
  build_count_sequence n = (n / 10, (jumps (n / 10) ++ [n])%list, false).
Proof.
  intros Hn. unfold build_count_sequence.
  destruct (Z.leb_spec n 0); [lia|].
  destruct (Z.leb_spec n 10); [lia|].
  destruct (step_above_ten n Hn) as [-> _].
  change (map (fun i => n / 10 * i) (range 1 10)) with (jumps (n / 10)).
  rewrite last_item_jumps.
  pose proof (ninth_jump_below n Hn).
  destruct (Z.eqb_spec (n / 10 * 9) n); [lia|]. reflexivity.
Qed.

Lemma plan_small n :
  1 <= n <= 10 -> build_count_sequence n = (1, seqZ 1 n, false).
Proof.
  intros Hn. unfold build_count_sequence, range.
  destruct (Z.leb_spec n 0); [lia|].
  destruct (Z.leb_spec n 10); [|lia].
  by replace (n + 1 - 1) with n by lia.
Qed.

Lemma plan_nonpositive n : n <= 0 -> build_count_sequence n = (0, [], true).
Proof.
  intros Hn. unfold build_count_sequence.
  destruct (Z.leb_spec n 0); [done|lia].
Qed.

(** C4: [build_count_sequence] meets its piecewise contract.  A target
    [n <= 0] gives step 0, no sequence and the impossible flag; [1 <= n <= 10]
    gives step 1 and the sequence [1, ..., n]; [n > 10] gives the step
    [max(n // 10, 1)] and the nine jumps [step * i], followed by [n] when the
    ninth jump is not [n]; and then the sequence has at most ten elements and
    ends at [n]. *)
Theorem build_count_sequence_contract (n : Z) :
  (n <= 0 -> build_count_sequence n = (0, [], true))
  /\ (1 <= n <= 10 -> build_count_sequence n = (1, seqZ 1 n, false))
  /\ (10 < n ->
      let step := Z.max (n / 10) 1 in
      let generated := (fun i => step * i) <$> seqZ 1 9 in
      build_count_sequence n =
        (step,
         if last_item generated =? n then generated
         else (generated ++ [n])%list,
         false)
      /\ (List.length (plan_sequence n) <= 10)%nat
      /\ List.last (plan_sequence n) 0 = n
      /\ plan_sequence n <> []).
Proof.
  split; [apply plan_nonpositive|].
  split; [apply plan_small|].
  intros Hn step generated.
  destruct (step_above_ten n Hn) as [Hstep _].
  pose proof (ninth_jump_below n Hn) as Hlt.
  unfold plan_sequence. rewrite (plan_above_ten n Hn).
  subst step generated. rewrite Hstep.
  change ((fun i => n / 10 * i) <$> seqZ 1 9) with (jumps (n / 10)).
  rewrite last_item_jumps.
  destruct (Z.eqb_spec (n / 10 * 9) n); [lia|].
  repeat split; simpl; try lia. discriminate.
Qed.

(** The contract at 47, -3 and 7: the specification's end-to-end target and
    one target of each other case. *)
Lemma build_count_sequence_contract_witness :
  build_count_sequence 47 = (4, [4; 8; 12; 16; 20; 24; 28; 32; 36; 47], false)
  /\ build_count_sequence (-3) = (0, [], true)
  /\ build_count_sequence 7 = (1, [1; 2; 3; 4; 5; 6; 7], false).
Proof.
  split; [|split].
  - destruct (build_count_sequence_contract 47) as (_ & _ & H).
    destruct (H ltac:(lia)) as (-> & _). reflexivity.
  - destruct (build_count_sequence_contract (-3)) as (H & _).
    rewrite H by lia. reflexivity.
  - destruct (build_count_sequence_contract 7) as (_ & H & _).
    rewrite H by lia. reflexivity.
Defined.

(** C10: for every target [n >= 1] the planned sequence is strictly
    increasing, starts at a value of at least 1 and ends at [n]; above ten
    the ninth jump [9 * (n // 10)] is below [n], so [n] is always appended
    and the sequence has exactly ten elements. *)
Theorem plan_sequence_increasing (n : Z) :
  1 <= n ->
  StronglySorted Z.lt (plan_sequence n)
  /\ (exists first, head (plan_sequence n) = Some first /\ 1 <= first)
  /\ List.last (plan_sequence n) 0 = n
  /\ (10 < n ->
      9 * (n / 10) < n
      /\ last_item (jumps (Z.max (n / 10) 1)) <> n
      /\ plan_sequence n = (jumps (n / 10) ++ [n])%list
      /\ List.length (plan_sequence n) = 10%nat).
Proof.
  intros Hn. unfold plan_sequence.
  destruct (Z.le_gt_cases n 10) as [Hle|Hgt].
  - rewrite plan_small by lia. simpl.
    assert (Hcases : n = 1 \/ n = 2 \/ n = 3 \/ n = 4 \/ n = 5 \/ n = 6
                     \/ n = 7 \/ n = 8 \/ n = 9 \/ n = 10) by lia.
    repeat split; [| |  |lia..].
    + destruct_or!; subst n; vm_compute seqZ;
        repeat (constructor; try lia).
    + exists 1. split; [|lia].
      destruct_or!; subst n; reflexivity.
    + destruct_or!; subst n; reflexivity.
  - assert (Hgt' : 10 < n) by lia.
    destruct (step_above_ten n Hgt') as [Hstep Hge].
    pose proof (ninth_jump_below n Hgt') as Hlt.
    rewrite (plan_above_ten n Hgt'). cbn [fst snd].
    split; [|split; [|split]].
    + rewrite jumps_eq. simpl. repeat (constructor; try lia).
    + exists (n / 10 * 1). split; [reflexivity|lia].
    + reflexivity.
    + intros _. rewrite Hstep, last_item_jumps.
      repeat split; try lia; reflexivity.
Qed.

(** The sequence for 47: increasing, from 4 to 47, ten elements. *)
Lemma plan_sequence_increasing_witness :
  1 <= 47 /\ StronglySorted Z.lt (plan_sequence 47)
  /\ List.last (plan_sequence 47) 0 = 47.
Proof.
  split; [lia|].
  destruct (plan_sequence_increasing 47 ltac:(lia)) as (Hs & _ & Hl & _).
  exact (conj Hs Hl).
Defined.

(** ** The estimator: [estimate_count_time] *)

Lemma pair_fmap_fst {A B} (a : A) (r : result B) (x : A) (y : B) :
  pair a <$> r = Val (x, y) -> x = a.
Proof. destruct r; simpl; [|discriminate]. by intros [= <- _]. Qed.

(** When the estimator returns, the seconds are its argument. *)
Lemma estimate_count_time_seconds n s t :
  estimate_count_time n = Val (s, t) -> s = n.
Proof.
  unfold estimate_count_time.
  destruct (n <=? 120); [by intros [= <- _]|].
  destruct (PyFloat.float_of_int n) as [f|]; [simpl|discriminate].
  repeat (case_match; try by apply pair_fmap_fst).
  by intros [= <- _].
Qed.

Lemma estimate_count_time_small n :
  n <= 120 ->
  estimate_count_time n = Val (n, "about " +:+ PyStr.of_int n +:+ " seconds").
Proof.
  intros Hn. unfold estimate_count_time.
  destruct (Z.leb_spec n 120); [reflexivity|lia].
Qed.

Lemma estimates_as_spec text n :
  estimates_as text n = true -> estimate_count_time n = Val (n, text n).
Proof.
  unfold estimates_as. destruct (estimate_count_time n) as [[s t]|]; [|done].
  intros [Hs Ht]%andb_true_iff.
  apply Z.eqb_eq in Hs. apply String.eqb_eq in Ht. by subst.
Qed.

(** The second row of the table, checked on each of its 3479 targets: the
    minutes are [n / 60] rounded to the nearest integer, ties to even. *)
Lemma estimate_minutes_row n :
  120 < n < 3600 ->
  estimate_count_time n
  = Val (n, "about " +:+ PyStr.of_int (round_half_even_div n 60) +:+ " minutes").
Proof.
  intros Hn.
  apply (estimates_as_spec
           (fun n => "about " +:+ PyStr.of_int (round_half_even_div n 60)
                     +:+ " minutes")).
  assert (Hall : forallb
                   (estimates_as
                      (fun n => "about " +:+ PyStr.of_int (round_half_even_div n 60)
                                +:+ " minutes"))
                   (seqZ 121 3479) = true) by (by vm_compute).
  rewrite forallb_forall in Hall. apply Hall.
  apply list_elem_of_In, elem_of_seqZ. lia.
Qed.

Example estimate_90 : estimate_count_time 90 = Val (90, "about 90 seconds").
Proof. reflexivity. Qed.

Example estimate_600 : estimate_count_time 600 = Val (600, "about 10 minutes").
Proof. vm_compute. reflexivity. Qed.

(** The phrases of the table, one target in each row. *)
Example estimate_rows :
  estimate_count_time 7200 = Val (7200, "about 2 hours")
  /\ estimate_count_time 864000 = Val (864000, "about 10 days")
  /\ estimate_count_time 315360000 = Val (315360000, "about 10 years")
  /\ estimate_count_time (31536000 * 5000) = Val (31536000 * 5000, "about 5 thousand years")
  /\ estimate_count_time (31536000 * 7000000)
     = Val (31536000 * 7000000, "about 7 million years")
  /\ estimate_count_time (10 ^ 21)
     = Val (10 ^ 21, "longer than the age of the universe").
Proof. vm_compute. repeat split. Qed.

(** Ties go to the even neighbour: 150 seconds are 2.5 minutes, shown as 2. *)
Example estimate_150 : estimate_count_time 150 = Val (150, "about 2 minutes").
Proof. vm_compute. reflexivity. Qed.

(** C7: the estimator does not return for every integer.  At [n = 2^1024]
    the conversion of [seconds] to a float in [seconds / 60.0] raises
    [OverflowError], where the claim promises the pair
    [(n, "longer than the age of the universe")]. *)
Theorem estimate_count_time_overflow :
  estimate_count_time (2 ^ 1024) = Raise OverflowError
  /\ estimate_count_time (10 ^ 400) = Raise OverflowError
  /\ estimate_count_time (2 ^ 1024 - 2 ^ 970 - 1)
     = Val (2 ^ 1024 - 2 ^ 970 - 1, "longer than the age of the universe").
Proof. vm_compute. repeat split. Qed.

(** ** The evaluator: [safe_eval_expression] *)

Section Evaluator.

Variable h : Host.













End Evaluator.

(** The specification's examples. *)
Example eval_examples (h : Host) :
  safe_eval_expression h "2 + 2" = Val (NInt 4)
  /\ safe_eval_expression h "900 + 500 / 2" = Val (NFloat (PyFloat.of_Z 1150))
  /\ safe_eval_expression h "12 * 3 - 4" = Val (NInt 32)
  /\ safe_eval_expression h "5 / 0" = Raise ZeroDivisionError
  /\ safe_eval_expression h "__import__('os')" = Raise ValueError
  /\ safe_eval_expression h "open('x')" = Raise ValueError
  /\ safe_eval_expression h "2 +" = Raise SyntaxError.
Proof. vm_compute. repeat split. Qed.

(** A boolean literal is a constant whose value is an [int] for
    [isinstance]: it is evaluated, and counts as 0 or 1. *)
Example eval_boolean (h : Host) :
  safe_eval_expression h "True" = Val (NBool true)
  /\ safe_eval_expression h "True + True" = Val (NInt 2).
Proof. vm_compute. repeat split. Qed.

(** An arithmetic error in an operand evaluated earlier wins over the
    rejection of a later operand. *)
Example eval_error_order (h : Host) :
  safe_eval_expression h "1/0 + x" = Raise ZeroDivisionError
  /\ safe_eval_expression h "x + 1/0" = Raise ValueError
  /\ safe_eval_expression h "1/0 + 'a'" = Raise ZeroDivisionError.
Proof. vm_compute. repeat split. Qed.







(** ** Operator precedence *)


(** *** The tokens of [-a ** b] *)













(** Precedence on texts: eight expressions and their values. *)
Example precedence_examples (h : Host) :
  safe_eval_expression h "1 + 2 * 3" = Val (NInt 7)
  /\ safe_eval_expression h "(1 + 2) * 3" = Val (NInt 9)
  /\ safe_eval_expression h "10 - 4 - 3" = Val (NInt 3)
  /\ safe_eval_expression h "2 * 7 % 4" = Val (NInt 2)
  /\ safe_eval_expression h "2 ** 3 ** 2" = Val (NInt 512)
  /\ safe_eval_expression h "-2 ** 2" = Val (NInt (-4))
  /\ safe_eval_expression h "(-2) ** 2" = Val (NInt 4)
  /\ safe_eval_expression h "2 * -3" = Val (NInt (-6)).
Proof. vm_compute. repeat split. Qed.




(** ** The reconciliation: [apply_math_logic] *)

Section Reconciliation.
Variable h : Host.

Lemma setdefault_lookup_ne k v d k' :
  k <> k' -> setdefault k v d !! k' = d !! k'.
Proof.
  intros Hne. unfold setdefault. destruct (d !! k); [done|].
  by rewrite lookup_insert_ne.
Qed.

Lemma setdefault_lookup_eq k v d :
  setdefault k v d !! k = Some (default v (d !! k)).
Proof.
  unfold setdefault. destruct (d !! k) eqn:E; simpl; [done|].
  by rewrite lookup_insert_eq.
Qed.

(** The defaults leave every other key alone. *)
Lemma with_defaults_other logic k :
  k ∉ default_keys -> with_defaults logic !! k = logic !! k.
Proof.
  intros Hk. unfold with_defaults.
  rewrite !setdefault_lookup_ne; [done|..];
    intros <-; apply Hk; elem_solve.
Qed.

(** A key that the classifier filled keeps its value. *)
Lemma setdefault_present k' v' d k v :
  d !! k = Some v -> setdefault k' v' d !! k = Some v.
Proof.
  intros Hk. unfold setdefault. destruct (d !! k') eqn:E; [done|].
  destruct (decide (k' = k)) as [->|Hne]; [congruence|].
  by rewrite lookup_insert_ne.
Qed.

Lemma with_defaults_present logic k v :
  logic !! k = Some v -> with_defaults logic !! k = Some v.
Proof.
  intros Hk. unfold with_defaults. by repeat apply setdefault_present.
Qed.

Lemma py_get_with_defaults_other logic k :
  k ∉ default_keys -> py_get (with_defaults logic) k = py_get logic k.
Proof. intros Hk. unfold py_get. by rewrite with_defaults_other. Qed.

(** The defaulted keys whose default is [None]: [get] sees no
    difference. *)
Lemma py_get_with_defaults_none logic k :
  k ∈ ["target_number"; "step_size"; "unit"; "time_estimate_seconds";
       "time_estimate_text"; "visual_aid"] ->
  py_get (with_defaults logic) k = py_get logic k.
Proof.
  intros Hk. unfold py_get.
  destruct (logic !! k) as [v|] eqn:E.
  - by rewrite (with_defaults_present _ _ _ E).
  - unfold with_defaults.
    elem_cases Hk;
      rewrite ?setdefault_lookup_ne by done;
      rewrite setdefault_lookup_eq;
      rewrite ?setdefault_lookup_ne by done;
      by rewrite E.
Qed.

Lemma result_bind_val {A B} (a : A) (f : A -> result B) : Val a ≫= f = f a.
Proof. reflexivity. Qed.

Lemma apply_math_logic_unfold data transcript logic intent :
  classified data logic intent ->
  apply_math_logic h data transcript =
  let logic := with_defaults logic in
  if String.eqb intent "CALCULATE" then
    expr ← hint logic "expression" "";
    spoken_problem ← hint logic "spoken_problem" transcript;
    if String.eqb expr "" then Val (Some (calculate_failed data logic))
    else
      match safe_eval_expression h expr with
      | Raise _ => Val (Some (calculate_failed data logic))
      | Val result => Val (Some (calculate_succeeded data logic spoken_problem result))
      end
  else if String.eqb intent "COUNT" then
    match py_int (py_get logic "target_number") with
    | Raise _ => Val (Some (count_failed data logic))
    | Val n =>
        if n <=? 0 then Val (Some (count_failed data logic))
        else Some <$> count_succeeded h data logic n
    end
  else Val None.
Proof.
  intros [Hl Hi]. unfold apply_math_logic.
  rewrite Hl, result_bind_val, Hi, result_bind_val. reflexivity.
Qed.

(** Any intent other than CALCULATE and COUNT: the function ends without a
    [return]. *)
Lemma apply_math_logic_other data transcript logic intent :
  classified data logic intent ->
  intent <> "CALCULATE" -> intent <> "COUNT" ->
  apply_math_logic h data transcript = Val None.
Proof.
  intros Hc H1 H2. rewrite (apply_math_logic_unfold _ _ _ _ Hc). cbv zeta.
  apply String.eqb_neq in H1, H2. by rewrite H1, H2.
Qed.

Lemma apply_math_logic_count_failed data transcript logic :
  classified data logic "COUNT" ->
  count_rejects (py_get logic "target_number") = true ->
  apply_math_logic h data transcript
  = Val (Some (count_failed data (with_defaults logic))).
Proof.
  intros Hc Hr. rewrite (apply_math_logic_unfold _ _ _ _ Hc). count_intent.
  rewrite py_get_with_defaults_none by elem_solve.
  unfold count_rejects in Hr.
  destruct (py_int (py_get logic "target_number")); [|done].
  by rewrite Hr.
Qed.

Lemma apply_math_logic_count data transcript logic n :
  classified data logic "COUNT" ->
  py_int (py_get logic "target_number") = Val n -> 0 < n ->
  apply_math_logic h data transcript
  = Some <$> count_succeeded h data (with_defaults logic) n.
Proof.
  intros Hc Hn Hpos. rewrite (apply_math_logic_unfold _ _ _ _ Hc). count_intent.
  rewrite py_get_with_defaults_none by elem_solve. rewrite Hn.
  destruct (Z.leb_spec n 0); [lia|done].
Qed.

Lemma apply_math_logic_calculate data transcript logic expr spoken :
  classified data logic "CALCULATE" ->
  hint logic "expression" "" = Val expr ->
  hint logic "spoken_problem" transcript = Val spoken ->
  apply_math_logic h data transcript =
  if String.eqb expr "" then Val (Some (calculate_failed data (with_defaults logic)))
  else
    match safe_eval_expression h expr with
    | Raise _ => Val (Some (calculate_failed data (with_defaults logic)))
    | Val result =>
        Val (Some (calculate_succeeded data (with_defaults logic) spoken result))
    end.
Proof.
  intros Hc He Hs. rewrite (apply_math_logic_unfold _ _ _ _ Hc). cbv zeta.
  change (String.eqb "CALCULATE" "CALCULATE") with true. cbv iota.
  unfold hint in *.
  rewrite !py_get_with_defaults_other
    by elem_solve.
  rewrite He, result_bind_val, Hs, result_bind_val. reflexivity.
Qed.

End Reconciliation.

(** C2: the reconciliation does not always return a record.  For the
    SMALL_TALK intent, for an intent it does not know and for a record with
    no [_math_logic], [apply_math_logic] reaches its end without a [return]:
    the caller receives [None], where the claim promises the record with its
    text passed through.  And an exception escapes for a COUNT target of
    [10^400] ([OverflowError]), for a unit that is not a string
    ([TypeError]) and for an intent that is not a string
    ([AttributeError]). *)
Theorem small_talk_returns_none (h : Host) (transcript : string) :
  apply_math_logic h small_talk_reply transcript = Val None
  /\ apply_math_logic h (reply "Hm." (<["intent" := PStr "chat"]> ∅)) transcript
     = Val None
  /\ apply_math_logic h (<["text" := PStr "Hm."]> ∅) transcript = Val None
  /\ apply_math_logic h (count_reply (PInt (10 ^ 400))) transcript
     = Raise OverflowError
  /\ apply_math_logic h
       (reply "Go!" (<["intent" := PStr "COUNT"]>
                       (<["target_number" := PInt 3]> (<["unit" := PInt 5]> ∅))))
       transcript
     = Raise TypeError
  /\ apply_math_logic h (reply "Hm." (<["intent" := PInt 1]> ∅)) transcript
     = Raise AttributeError.
Proof. vm_compute. repeat split. Qed.

Section Count.
Variable h : Host.

Lemma count_failed_fields data logic :
  math_logic (count_failed data logic) !! "is_impossible" = Some (PBool true)
  /\ math_logic (count_failed data logic) !! "sequence" = Some (PList [])
  /\ count_failed data logic !! "screen" = Some (PStr "")
  /\ count_failed data logic !! "text" = data !! "text"
  /\ (forall k, k <> "is_impossible" -> k <> "sequence" ->
      math_logic (count_failed data logic) !! k = logic !! k).
Proof.
  unfold count_failed, math_logic. rewrite lookup_insert_eq.
  repeat split; intros; by simplify_map_eq.
Qed.


End Count.





(** *** CALCULATE *)




Lemma calculate_succeeded_fields data logic spoken v :
  let out := calculate_succeeded data logic spoken v in
  let r := normalize_result v in
  math_logic out !! "target_number" = Some (pyval_of_number r)
  /\ math_logic out !! "sequence" = Some (PList [pyval_of_number r])
  /\ math_logic out !! "is_impossible" = Some (PBool false)
  /\ out !! "screen" = Some (PStr (result_screen r))
  /\ out !! "text" =
     Some (PStr ("You asked what " +:+ spoken +:+ " is. The answer is "
                 +:+ result_screen r +:+ "."))
  /\ (forall k, k <> "target_number" -> k <> "sequence" -> k <> "is_impossible" ->
      math_logic out !! k = logic !! k).
Proof.
  unfold calculate_succeeded, math_logic. rewrite lookup_insert_eq.
  repeat split; intros; by simplify_map_eq.
Qed.

Lemma calculate_failed_fields data logic :
  let out := calculate_failed data logic in
  math_logic out !! "is_impossible" = Some (PBool true)
  /\ math_logic out !! "sequence" = Some (PList [])
  /\ out !! "screen" = Some (PStr apology_screen)
  /\ out !! "text" = Some (PStr apology_text)
  /\ (forall k, k <> "sequence" -> k <> "is_impossible" ->
      math_logic out !! k = logic !! k).
Proof.
  unfold calculate_failed, math_logic. rewrite lookup_insert_eq.
  repeat split; intros; by simplify_map_eq.
Qed.





(** *** Which fields the reconciliation computes *)

Section Fields.
Variable h : Host.

Lemma count_succeeded_fields data logic n out :
  count_succeeded h data logic n = Val out ->
  math_logic out !! "step_size" = Some (PInt (plan_step n))
  /\ math_logic out !! "sequence" = Some (PList (PInt <$> plan_sequence n))
  /\ math_logic out !! "is_impossible" = Some (PBool (plan_impossible n))
  /\ math_logic out !! "target_number" = Some (PInt n)
  /\ (exists txt,
        estimate_count_time n = Val (n, txt)
        /\ math_logic out !! "time_estimate_seconds" = Some (PInt n)
        /\ math_logic out !! "time_estimate_text" = Some (PStr txt))
  /\ out !! "screen" = Some (PStr (PyStr.join ", " (jump_digits n))).
Proof.
  unfold count_succeeded, plan_step, plan_sequence, plan_impossible, jump_digits,
    plan_sequence.
  destruct (build_count_sequence n) as [[step seq] imp]. cbn [fst snd].
  destruct (estimate_count_time n) as [[secs txt]|] eqn:He; [|discriminate].
  pose proof (estimate_count_time_seconds _ _ _ He) as ->.
  cbn [mbind result_bind].
  match goal with
  | |- context [mbind _ ?intro] => destruct intro as [i|]; [|discriminate]
  end.
  cbn [mbind result_bind]. intros [= <-].
  unfold math_logic. rewrite lookup_insert_eq.
  repeat split; try by simplify_map_eq.
  exists txt. repeat split; by simplify_map_eq.
Qed.

Lemma plan_possible n : 0 < n -> plan_impossible n = false.
Proof.
  intros Hn. unfold plan_impossible, build_count_sequence.
  destruct (Z.leb_spec n 0); [lia|]. by destruct (n <=? 10).
Qed.

End Fields.

(** Two CALCULATE records that differ only in the classifier's own
    [step_size]; both evaluate [2 + 2]. *)
Example calculate_keeps_step_size (h : Host) (claimed : pyval) :
  exists out,
    apply_math_logic h (calculate_reply "2 + 2" claimed) "two plus two"
      = Val (Some out)
    /\ math_logic out !! "target_number" = Some (PInt 4)
    /\ math_logic out !! "step_size" = Some claimed.
Proof.
  eexists. split; [|split].
  - erewrite apply_math_logic_calculate; [|split; reflexivity|reflexivity..].
    change (String.eqb "2 + 2" "") with false. cbv iota.
    replace (safe_eval_expression h "2 + 2") with (Val (NInt 4))
      by (by vm_compute).
    reflexivity.
  - apply calculate_succeeded_fields.
  - destruct (calculate_succeeded_fields (calculate_reply "2 + 2" claimed)
                (with_defaults
                   (<["intent" := PStr "CALCULATE"]>
                      (<["expression" := PStr "2 + 2"]>
                         (<["spoken_problem" := PStr "that"]>
                            (<["step_size" := claimed]> ∅)))))
                "that" (NInt 4)) as (_ & _ & _ & _ & _ & Hk).
    cbv zeta in Hk. rewrite Hk by done.
    apply with_defaults_present. by simplify_map_eq.
Qed.

(** C3, as stated, fails: two records that differ only in the step size the
    classifier claims (7 and 8) come back, on every host, with different
    step sizes: the field is the classifier's, not the backend's. *)
Lemma classifier_step_size_counterexample :
  ~ (exists (h : Host) (out out' : dict),
       apply_math_logic h (calculate_reply "2 + 2" (PInt 7)) "two plus two"
         = Val (Some out)
       /\ apply_math_logic h (calculate_reply "2 + 2" (PInt 8)) "two plus two"
          = Val (Some out')
       /\ math_logic out !! "step_size" = math_logic out' !! "step_size").
Proof.
  intros (h & out & out' & Ha & Ha' & Heq).
  destruct (calculate_keeps_step_size h (PInt 7)) as (o & Ho & _ & Hs).
  destruct (calculate_keeps_step_size h (PInt 8)) as (o' & Ho' & _ & Hs').
  rewrite Ho in Ha. injection Ha as <-.
  rewrite Ho' in Ha'. injection Ha' as <-.
  rewrite Hs, Hs' in Heq. discriminate Heq.
Qed.

(** C3 (amended): what a returned record holds.
    - COUNT with a target whose integer conversion [n] is positive: the
      target, the step size, the sequence, the impossible flag, the time
      estimate (seconds and text) and the screen are computed from [n]
      alone.
    - CALCULATE, every branch: [step_size], [time_estimate_seconds] and
      [time_estimate_text] are the classifier's, [None] when it gave none.
    - Every branch that sets [is_impossible]: the sequence is empty, and
      [target_number], [step_size] and the time estimate are the
      classifier's, [None] when it gave none. *)
Theorem reconciled_fields (h : Host) (data : dict) (transcript : string)
    (logic : dict) (intent : string) (out : dict) :
  classified data logic intent ->
  apply_math_logic h data transcript = Val (Some out) ->
  (intent = "COUNT" ->
   forall n, py_int (py_get logic "target_number") = Val n -> 0 < n ->
     math_logic out !! "target_number" = Some (PInt n)
     /\ math_logic out !! "step_size" = Some (PInt (plan_step n))
     /\ math_logic out !! "sequence" = Some (PList (PInt <$> plan_sequence n))
     /\ math_logic out !! "is_impossible" = Some (PBool false)
     /\ (exists txt,
           estimate_count_time n = Val (n, txt)
           /\ math_logic out !! "time_estimate_seconds" = Some (PInt n)
           /\ math_logic out !! "time_estimate_text" = Some (PStr txt))
     /\ out !! "screen" = Some (PStr (PyStr.join ", " (jump_digits n))))
  /\ (intent = "CALCULATE" ->
      forall k, k ∈ ["step_size"; "time_estimate_seconds"; "time_estimate_text"] ->
        math_logic out !! k = Some (py_get logic k))
  /\ (math_logic out !! "is_impossible" = Some (PBool true) ->
      math_logic out !! "sequence" = Some (PList [])
      /\ forall k, k ∈ ["target_number"; "step_size"; "time_estimate_seconds";
                        "time_estimate_text"] ->
           math_logic out !! k = Some (py_get logic k)).
Proof.
  intros Hc Ha.
  assert (Hdef : forall k,
             k ∈ ["target_number"; "step_size"; "time_estimate_seconds";
                  "time_estimate_text"] ->
             with_defaults logic !! k = Some (py_get logic k)).
  { intros k Hk.
    assert (Hk' : k ∈ ["target_number"; "step_size"; "unit";
                       "time_estimate_seconds"; "time_estimate_text"; "visual_aid"])
      by (elem_cases Hk; elem_solve).
    pose proof (py_get_with_defaults_none logic k Hk') as Hg.
    unfold py_get in Hg at 1.
    destruct (with_defaults logic !! k) as [v|] eqn:E; [by rewrite <- Hg|].
    exfalso. revert E. unfold with_defaults.
    elem_cases Hk;
      rewrite ?setdefault_lookup_ne by done;
      rewrite setdefault_lookup_eq; discriminate. }
  split; [|split].
  - intros -> n Hn Hpos.
    rewrite (apply_math_logic_count h _ _ _ _ Hc Hn Hpos) in Ha.
    destruct (count_succeeded h data (with_defaults logic) n) as [o|] eqn:Ho;
      [|discriminate Ha].
    injection Ha as <-.
    destruct (count_succeeded_fields h _ _ _ _ Ho) as (H1 & H2 & H3 & H4 & H5 & H6).
    rewrite (plan_possible n Hpos) in H3. by repeat split.
  - intros -> k Hk.
    rewrite (apply_math_logic_unfold h _ _ _ _ Hc) in Ha. cbv zeta in Ha.
    change (String.eqb "CALCULATE" "CALCULATE") with true in Ha. cbv iota in Ha.
    destruct (hint (with_defaults logic) "expression" "") as [e|];
      [|discriminate Ha].
    rewrite result_bind_val in Ha.
    destruct (hint (with_defaults logic) "spoken_problem" transcript) as [s|];
      [|discriminate Ha].
    rewrite result_bind_val in Ha.
    assert (Hk3 : k <> "target_number" /\ k <> "sequence" /\ k <> "is_impossible").
    { elem_cases Hk; done. }
    destruct Hk3 as (K1 & K2 & K3).
    assert (Hfail : math_logic (calculate_failed data (with_defaults logic)) !! k
                    = Some (py_get logic k)).
    { destruct (calculate_failed_fields data (with_defaults logic))
        as (_ & _ & _ & _ & Hrest).
      rewrite Hrest by done. apply Hdef. elem_cases Hk; elem_solve. }
    destruct (String.eqb e ""); [by injection Ha as <-|].
    destruct (safe_eval_expression h e) as [v|]; injection Ha as <-; [|done].
    destruct (calculate_succeeded_fields data (with_defaults logic) s v)
      as (_ & _ & _ & _ & _ & Hrest).
    rewrite Hrest by done. apply Hdef. elem_cases Hk; elem_solve.
  - intros Hi.
    assert (Hkeys : forall k,
               k ∈ ["target_number"; "step_size"; "time_estimate_seconds";
                    "time_estimate_text"] ->
               k <> "sequence" /\ k <> "is_impossible").
    { intros k Hk.
      elem_cases Hk; done. }
    rewrite (apply_math_logic_unfold h _ _ _ _ Hc) in Ha. cbv zeta in Ha.
    destruct (String.eqb intent "CALCULATE").
    + destruct (hint (with_defaults logic) "expression" "") as [e|];
        [|discriminate Ha].
      rewrite result_bind_val in Ha.
      destruct (hint (with_defaults logic) "spoken_problem" transcript) as [s|];
        [|discriminate Ha].
      rewrite result_bind_val in Ha.
      assert (Hfail : out = calculate_failed data (with_defaults logic)).
      { destruct (String.eqb e ""); [by injection Ha as <-|].
        destruct (safe_eval_expression h e) as [v|]; injection Ha as <-; [|done].
        destruct (calculate_succeeded_fields data (with_defaults logic) s v)
          as (_ & _ & H3 & _).
        cbv zeta in H3. rewrite H3 in Hi. discriminate Hi. }
      subst out.
      destruct (calculate_failed_fields data (with_defaults logic))
        as (_ & H2 & _ & _ & Hrest).
      split; [exact H2|]. intros k Hk. destruct (Hkeys k Hk).
      rewrite Hrest by done. by apply Hdef.
    + destruct (String.eqb intent "COUNT"); [|discriminate Ha].
      assert (Hfail : out = count_failed data (with_defaults logic)).
      { destruct (py_int (py_get (with_defaults logic) "target_number")) as [n|];
          [|by injection Ha as <-].
        destruct (Z.leb_spec n 0); [by injection Ha as <-|].
        destruct (count_succeeded h data (with_defaults logic) n) as [o|] eqn:Ho;
          [|discriminate Ha].
        injection Ha as <-.
        destruct (count_succeeded_fields h _ _ _ _ Ho) as (_ & _ & H3 & _).
        rewrite (plan_possible n) in H3 by lia.
        rewrite H3 in Hi. discriminate Hi. }
      subst out.
      destruct (count_failed_fields data (with_defaults logic))
        as (_ & H2 & _ & _ & Hrest).
      split; [exact H2|]. intros k Hk. destruct (Hkeys k Hk).
      rewrite Hrest by done. by apply Hdef.
Qed.

(** The specification's end-to-end scenario: COUNT with the target 47. *)
Lemma reconciled_fields_witness :
  exists out,
    apply_math_logic bare_host (count_reply (PInt 47)) "count to 47"
      = Val (Some out)
    /\ math_logic out !! "step_size" = Some (PInt 4)
    /\ math_logic out !! "sequence"
       = Some (PList (PInt <$> [4; 8; 12; 16; 20; 24; 28; 32; 36; 47]))
    /\ math_logic out !! "time_estimate_text" = Some (PStr "about 47 seconds").
Proof.
  destruct (apply_math_logic bare_host (count_reply (PInt 47)) "count to 47")
    as [[out|]|] eqn:Ha; [|by vm_compute in Ha..].
  destruct (reconciled_fields bare_host (count_reply (PInt 47)) "count to 47"
              (<["intent" := PStr "COUNT"]> (<["target_number" := PInt 47]> ∅))
              "COUNT" out) as (H & _).
  - split; reflexivity.
  - exact Ha.
  - destruct (H eq_refl 47 eq_refl ltac:(lia))
      as (_ & H2 & H3 & _ & (txt & Ht & _ & H5) & _).
    exists out. split; [reflexivity|]. split; [exact H2|]. split; [exact H3|].
    rewrite H5. injection Ht as <-. reflexivity.
Defined.

(** * Properties beyond the specification *)

(** ** The evaluator: integer arithmetic *)




(** ** The evaluator: division by zero *)

Lemma SFeqb_zero s : SFeqb (S754_zero s) (S754_zero false) = true.
Proof. by destruct s. Qed.

Lemma float_division_by_zero h op fa s :
  division op -> float_op h op fa (S754_zero s) = Raise ZeroDivisionError.
Proof.
  intros [->|[->| ->]]; unfold float_op.
  - unfold PyFloat.truediv. by rewrite SFeqb_zero.
  - unfold PyFloat.floordiv. by rewrite SFeqb_zero.
  - unfold PyFloat.rem. by rewrite SFeqb_zero.
Qed.

Lemma as_float_zero b :
  is_zero_number b = true -> exists s, as_float b = Val (S754_zero s).
Proof.
  destruct b as [z|[]|f|]; simpl; try done.
  - intros ->%Z.eqb_eq. eauto.
  - eauto.
  - destruct f; try done. eauto.
Qed.

Lemma as_int_zero b y :
  is_zero_number b = true -> as_int b = Some y -> y = 0.
Proof.
  destruct b as [z|[]|f|]; simpl; try done.
  - by intros ->%Z.eqb_eq [= <-].
  - by intros _ [= <-].
Qed.

(** X2: a division by zero raises [ZeroDivisionError].  When the right
    operand of [/], [//] or [%] evaluates to a zero ([0], [False], [0.0] or
    [-0.0]) and the left operand to a real number, the operation raises
    [ZeroDivisionError]; the one exception is an integer too large for a
    float divided by a float zero, where the conversion fails first, which
    the last hypothesis excludes. *)
Theorem division_by_zero (h : Host) (l r : ast.AST) (op : ast.operator)
    (a b : number) :
  division op ->
  _eval h l = Val a -> _eval h r = Val b ->
  is_complex a = false -> is_zero_number b = true ->
  is_Some (as_int b) \/ is_Val (as_float a) = true ->
  _eval h (ast.BinOp l op r) = Raise ZeroDivisionError.
Proof.
  intros Hop Hl Hr Ha Hb Hconv.
  assert (Hallowed : ALLOWED_BINOPS h op = Some (arith h op)).
  { by destruct Hop as [->|[->| ->]]. }
  cbn [_eval]. rewrite Hallowed, Hl, Hr. cbn [mbind result_bind].
  unfold arith. rewrite Ha.
  assert (Hbc : is_complex b = false) by (by destruct b).
  rewrite Hbc. cbn [orb].
  destruct (as_float_zero b Hb) as [s Hfb].
  destruct (as_int a) as [x|] eqn:Ex; [destruct (as_int b) as [y|] eqn:Ey|].
  - rewrite (as_int_zero b y Hb Ey).
    destruct Hop as [->|[->| ->]]; simpl; [|done..].
    unfold PyFloat.int_truediv. by destruct x.
  - destruct Hconv as [[? [=]]|Hconv].
    destruct (as_float a) as [fa|]; [|done]. rewrite Hfb. simpl.
    by apply float_division_by_zero.
  - assert (exists fa, as_float a = Val fa) as [fa ->].
    { destruct a; try done. simpl. eauto. }
    rewrite Hfb. simpl. by apply float_division_by_zero.
Qed.

(** [(3 + 4) % (2 - 2)]. *)
Lemma division_by_zero_witness :
  safe_eval_expression bare_host "(3 + 4) % (2 - 2)" = Raise ZeroDivisionError.
Proof.
  apply (division_by_zero bare_host
           (ast.BinOp (ast.Constant (ast.CInt 3)) ast.Add (ast.Constant (ast.CInt 4)))
           (ast.BinOp (ast.Constant (ast.CInt 2)) ast.Sub (ast.Constant (ast.CInt 2)))
           ast.Mod (NInt 7) (NInt 0)).
  - right; by right.
  - reflexivity.
  - reflexivity.
  - reflexivity.
  - reflexivity.
  - left. by eexists.
Defined.

(** ** The evaluator: expressions without a power *)













(** ** The evaluator: two literals and an operator *)










(** ** The planner: the lengths of the jumps *)

Lemma last_cons_default (y : Z) l d d' :
  List.last (y :: l) d = List.last (y :: l) d'.
Proof.
  revert y. induction l as [|z l IH]; intros y; [done|].
  change (List.last (z :: l) d = List.last (z :: l) d'). apply IH.
Qed.

Lemma jump_lengths_app prev l x :
  jump_lengths prev (l ++ [x]) = (jump_lengths prev l ++ [x - List.last l prev])%list.
Proof.
  revert prev. induction l as [|y l IH]; intros prev; [done|].
  assert (List.last (y :: l) prev = List.last l y) as Hlast.
  { destruct l as [|z l]; [done|].
    change (List.last (z :: l) prev = List.last (z :: l) y).
    apply last_cons_default. }
  cbn [jump_lengths app]. by rewrite IH, Hlast.
Qed.

(** X5: the lengths of the jumps.  Up to ten the plan counts by ones.
    Above ten the step is [n // 10] (so [10 * step <= n < 10 * step + 10]),
    the first nine jumps have the length of one step and the tenth takes up
    the remainder, [step + n % 10]: the ten jumps are equal exactly when
    ten divides [n]; and every element of the sequence lies between the step
    and [n]. *)
Theorem plan_jump_lengths (n : Z) :
  (1 <= n <= 10 ->
   jump_lengths 0 (plan_sequence n) = replicate (Z.to_nat n) 1)
  /\ (10 < n ->
      let step := plan_step n in
      step = n / 10
      /\ 10 * step <= n < 10 * step + 10
      /\ jump_lengths 0 (plan_sequence n)
         = (replicate 9 step ++ [step + n mod 10])%list
      /\ (n mod 10 = 0 <-> jump_lengths 0 (plan_sequence n) = replicate 10 step)
      /\ (forall x, x ∈ plan_sequence n -> step <= x <= n)).
Proof.
  split.
  - intros Hn. unfold plan_sequence. rewrite plan_small by lia. cbn [fst snd].
    assert (Hcases : n = 1 \/ n = 2 \/ n = 3 \/ n = 4 \/ n = 5 \/ n = 6
                     \/ n = 7 \/ n = 8 \/ n = 9 \/ n = 10) by lia.
    destruct_or!; subst n; reflexivity.
  - intros Hn step. subst step. unfold plan_step, plan_sequence.
    rewrite (plan_above_ten n Hn). cbn [fst snd].
    pose proof (Z.div_mod n 10 ltac:(lia)) as Hdm.
    pose proof (Z.mod_pos_bound n 10 ltac:(lia)) as Hmod.
    destruct (step_above_ten n Hn) as [_ Hstep].
    split; [done|]. split; [lia|].
    assert (Hj : jump_lengths 0 (jumps (n / 10) ++ [n])
                 = (replicate 9 (n / 10) ++ [n / 10 + n mod 10])%list).
    { rewrite jump_lengths_app, jumps_eq.
      cbn [jump_lengths replicate List.last app].
      repeat (f_equal; try lia). }
    split; [exact Hj|]. split; [split|].
    + intros H0. rewrite Hj, H0, Z.add_0_r. reflexivity.
    + rewrite Hj. cbn [replicate app]. intros [= H]. lia.
    + intros x Hx. rewrite jumps_eq in Hx.
      apply elem_of_app in Hx as [Hx|Hx].
      * rewrite !elem_of_cons, elem_of_nil in Hx. lia.
      * apply list_elem_of_singleton in Hx. lia.
Qed.

(** The jumps to 47: nine of 4 and one of 11. *)
Lemma plan_jump_lengths_witness :
  jump_lengths 0 (plan_sequence 47) = [4; 4; 4; 4; 4; 4; 4; 4; 4; 11].
Proof.
  destruct (plan_jump_lengths 47) as [_ H].
  destruct (H ltac:(lia)) as (_ & _ & -> & _). reflexivity.
Defined.

(** ** The estimator below one hour *)

Lemma estimate_short n :
  n < 3600 -> estimate_count_time n = Val (n, short_phrase n).
Proof.
  intros Hn. unfold short_phrase.
  destruct (Z.leb_spec n 120); [by apply estimate_count_time_small|].
  apply estimate_minutes_row. lia.
Qed.

(** X6: below one hour the estimator always returns, with the seconds
    unchanged.  Up to 120 (zero and negative numbers included) the phrase
    gives the seconds as they are; above, the minutes [n / 60] rounded to the
    nearest integer, ties to the even one, which lies between 2 and 60: from
    3570 seconds on the phrase reads "about 60 minutes". *)
Theorem estimate_under_an_hour (n : Z) :
  n < 3600 ->
  estimate_count_time n = Val (n, short_phrase n)
  /\ (120 < n -> 2 <= round_half_even_div n 60 <= 60)
  /\ (3570 <= n -> short_phrase n = "about 60 minutes").
Proof.
  intros Hn. split; [by apply estimate_short|]. unfold short_phrase.
  destruct (Z.leb_spec n 120) as [Hs|Hs].
  - split; intros; lia.
  - assert (Hr : 2 <= round_half_even_div n 60 <= 60
                 /\ (3570 <= n -> round_half_even_div n 60 = 60)).
    { unfold round_half_even_div.
      pose proof (Z.div_mod n 60 ltac:(lia)) as Hdm.
      pose proof (Z.mod_pos_bound n 60 ltac:(lia)) as Hmod.
      assert (2 <= n / 60 <= 59) as Hq.
      { split; [apply Z.div_le_lower_bound; lia|].
        apply Z.lt_succ_r. apply Z.div_lt_upper_bound; lia. }
      destruct (Z.compare_spec (2 * (n mod 60)) 60) as [He|Hl|Hg].
      - destruct (Z.even (n / 60)) eqn:Hev.
        + split; [lia|]. intros H.
          assert (n / 60 = 59) as Hq59 by lia. rewrite Hq59 in Hev. discriminate.
        + split; [lia|]. intros H. lia.
      - split; [lia|]. intros H. lia.
      - split; [lia|]. intros H. lia. }
    destruct Hr as [Hb H60]. split; [done|].
    intros H. by rewrite (H60 H).
Qed.

(** 210 seconds are 3.5 minutes, shown as 4. *)
Lemma estimate_under_an_hour_witness :
  estimate_count_time 210 = Val (210, "about 4 minutes").
Proof.
  destruct (estimate_under_an_hour 210 ltac:(lia)) as [H _]. exact H.
Defined.

(** ** The reconciliation: what a returned record is *)

Section Returns.
Variable h : Host.

Lemma count_succeeded_record data logic n :
  count_succeeded h data logic n
  = (st ← estimate_count_time n;
     intro ← count_intro h (py_get logic "unit") n;
     Val (count_record data logic n st.2 intro)).
Proof.
  unfold count_succeeded, count_record, count_logic, count_closing, jump_digits,
    plan_step, plan_sequence, plan_impossible, count_intro.
  destruct (build_count_sequence n) as [[step seq] imp]. cbn [fst snd].
  destruct (estimate_count_time n) as [[secs txt]|] eqn:He; [|done].
  pose proof (estimate_count_time_seconds _ _ _ He) as ->.
  cbn [mbind result_bind snd].
  replace (py_get _ "unit") with (py_get logic "unit")
    by (unfold py_get; by simplify_map_eq).
  match goal with
  | |- context [mbind _ ?intro] => destruct intro as [i|]; [|done]
  end.
  reflexivity.
Qed.

Lemma hint_cases logic key dflt :
  (not_text (py_get logic key) = true /\ hint logic key dflt = Raise AttributeError)
  \/ (not_text (py_get logic key) = false /\ exists s, hint logic key dflt = Val s).
Proof.
  unfold hint, not_text, py_or.
  destruct (truthy (py_get logic key)) eqn:Ht; simpl.
  - destruct (py_get logic key); simpl; eauto.
  - right. eauto.
Qed.

(** The ways [apply_math_logic] returns a record. *)
Lemma apply_math_logic_cases data transcript out :
  apply_math_logic h data transcript = Val (Some out) ->
  exists logic intent,
    classified data logic intent
    /\ let L := with_defaults logic in
       ((intent = "CALCULATE"
         /\ exists expr spoken,
              hint logic "expression" "" = Val expr
              /\ hint logic "spoken_problem" transcript = Val spoken
              /\ ((out = calculate_failed data L
                   /\ (expr = "" \/ exists e, safe_eval_expression h expr = Raise e))
                  \/ (exists v, expr <> "" /\ safe_eval_expression h expr = Val v
                                /\ out = calculate_succeeded data L spoken v)))
        \/ (intent = "COUNT"
            /\ ((out = count_failed data L
                 /\ count_rejects (py_get logic "target_number") = true)
                \/ (exists n, py_int (py_get logic "target_number") = Val n
                              /\ 0 < n
                              /\ count_succeeded h data L n = Val out)))).
Proof.
  intros Ha.
  destruct (as_dict (py_or (py_get data "_math_logic") (PDict ∅))) as [logic|] eqn:Hl;
    [|unfold apply_math_logic in Ha; rewrite Hl in Ha; discriminate Ha].
  destruct (str_method PyStr.upper (py_or (py_get logic "intent") (PStr "")))
    as [intent|] eqn:Hi;
    [|unfold apply_math_logic in Ha; rewrite Hl, result_bind_val, Hi in Ha;
      discriminate Ha].
  exists logic, intent. split; [by split|]. cbv zeta.
  assert (Hc : classified data logic intent) by (by split).
  destruct (String.eqb_spec intent "CALCULATE") as [-> |Hnc].
  - left. split; [done|].
    destruct (hint_cases logic "expression" "") as [[_ He]|[_ [expr He]]].
    { rewrite (apply_math_logic_unfold h _ _ _ _ Hc) in Ha. cbv zeta in Ha.
      change (String.eqb "CALCULATE" "CALCULATE") with true in Ha. cbv iota in Ha.
      unfold hint in *. rewrite !py_get_with_defaults_other in Ha by elem_solve.
      rewrite He in Ha. discriminate Ha. }
    destruct (hint_cases logic "spoken_problem" transcript) as [[_ Hs]|[_ [spoken Hs]]].
    { rewrite (apply_math_logic_unfold h _ _ _ _ Hc) in Ha. cbv zeta in Ha.
      change (String.eqb "CALCULATE" "CALCULATE") with true in Ha. cbv iota in Ha.
      unfold hint in *. rewrite !py_get_with_defaults_other in Ha by elem_solve.
      rewrite He, result_bind_val, Hs in Ha. discriminate Ha. }
    exists expr, spoken. split; [done|]. split; [done|].
    rewrite (apply_math_logic_calculate h _ _ _ _ _ Hc He Hs) in Ha.
    destruct (String.eqb_spec expr "") as [-> |Hne].
    + left. injection Ha as <-. split; [done|by left].
    + destruct (safe_eval_expression h expr) as [v|e] eqn:Hv; injection Ha as <-.
      * right. by exists v.
      * left. split; [done|]. right. by exists e.
  - destruct (String.eqb_spec intent "COUNT") as [-> |Hnn].
    + right. split; [done|].
      destruct (count_rejects (py_get logic "target_number")) eqn:Hr.
      * left. rewrite (apply_math_logic_count_failed h _ _ _ Hc Hr) in Ha.
        by injection Ha as <-.
      * right. unfold count_rejects in Hr.
        destruct (py_int (py_get logic "target_number")) as [n|] eqn:Hn; [|done].
        apply Z.leb_gt in Hr. exists n. split; [done|]. split; [done|].
        rewrite (apply_math_logic_count h _ _ _ _ Hc Hn Hr) in Ha.
        destruct (count_succeeded h data (with_defaults logic) n); [|discriminate Ha].
        by injection Ha as <-.
    + rewrite (apply_math_logic_other h _ _ _ _ Hc Hnc Hnn) in Ha. discriminate Ha.
Qed.


(** The record and the object under [_math_logic] keep every key the branch
    does not assign. *)
Lemma returned_frame data transcript out logic intent :
  classified data logic intent ->
  apply_math_logic h data transcript = Val (Some out) ->
  (forall k, k ∉ ["screen"; "text"; "_math_logic"] -> out !! k = data !! k)
  /\ (forall k, k ∉ computed_keys ->
      math_logic out !! k = with_defaults logic !! k).
Proof.
  intros Hc Ha.
  destruct (apply_math_logic_cases _ _ _ Ha) as (logic' & intent' & Hc' & Hcases).
  assert (logic' = logic) as ->.
  { destruct Hc as [Hl _], Hc' as [Hl' _]. congruence. }
  clear Hc'. cbv zeta in Hcases.
  assert (Hkeys : forall k, k ∉ ["screen"; "text"; "_math_logic"] ->
            k <> "screen" /\ k <> "text" /\ k <> "_math_logic").
  { intros k Hk. repeat split; intros ->; apply Hk; elem_solve. }
  assert (Hlkeys : forall k, k ∉ computed_keys ->
            k <> "target_number" /\ k <> "is_impossible" /\ k <> "sequence"
            /\ k <> "step_size" /\ k <> "time_estimate_seconds"
            /\ k <> "time_estimate_text").
  { intros k Hk. repeat split; intros ->; apply Hk; elem_solve. }
  destruct Hcases as [(_ & expr & spoken & _ & _ & [[-> _]|(v & _ & _ & ->)])
                     |(_ & [[-> _]|(n & _ & _ & Hn)])].
  - split.
    + intros k (K1 & K2 & K3)%Hkeys. unfold calculate_failed. by simplify_map_eq.
    + intros k (K1 & K2 & K3 & _)%Hlkeys.
      unfold calculate_failed, math_logic. rewrite lookup_insert_eq.
      by simplify_map_eq.
  - split.
    + intros k (K1 & K2 & K3)%Hkeys. unfold calculate_succeeded. by simplify_map_eq.
    + intros k (K1 & K2 & K3 & _)%Hlkeys.
      unfold calculate_succeeded, math_logic. rewrite lookup_insert_eq.
      by simplify_map_eq.
  - split.
    + intros k (K1 & K2 & K3)%Hkeys. unfold count_failed. by simplify_map_eq.
    + intros k (K1 & K2 & K3 & _)%Hlkeys.
      unfold count_failed, math_logic. rewrite lookup_insert_eq.
      by simplify_map_eq.
  - rewrite count_succeeded_record in Hn.
    destruct (estimate_count_time n) as [[secs txt]|]; [|discriminate Hn].
    rewrite result_bind_val in Hn.
    destruct (count_intro h _ n) as [intro|]; [|discriminate Hn].
    rewrite result_bind_val in Hn. injection Hn as <-.
    split.
    + intros k (K1 & K2 & K3)%Hkeys. unfold count_record. by simplify_map_eq.
    + intros k (K1 & K2 & K3 & K4 & K5 & K6)%Hlkeys.
      unfold count_record, count_logic, math_logic. rewrite lookup_insert_eq.
      by simplify_map_eq.
Qed.


(** *** A second pass changes nothing *)

Lemma setdefault_id k v (d : dict) : is_Some (d !! k) -> setdefault k v d = d.
Proof. intros [x Hx]. unfold setdefault. by rewrite Hx. Qed.

Lemma with_defaults_keys logic k :
  k ∈ default_keys -> is_Some (with_defaults logic !! k).
Proof.
  intros Hk. unfold with_defaults, default_keys in *.
  elem_cases Hk;
    rewrite ?setdefault_lookup_ne by done;
    rewrite setdefault_lookup_eq; by eexists.
Qed.

Lemma with_defaults_id (d : dict) :
  (forall k, k ∈ default_keys -> is_Some (d !! k)) -> with_defaults d = d.
Proof.
  intros Hd. unfold with_defaults.
  rewrite (setdefault_id "target_number") by (apply Hd; elem_solve).
  rewrite (setdefault_id "is_impossible") by (apply Hd; elem_solve).
  rewrite (setdefault_id "step_size") by (apply Hd; elem_solve).
  rewrite (setdefault_id "unit") by (apply Hd; elem_solve).
  rewrite (setdefault_id "sequence") by (apply Hd; elem_solve).
  rewrite (setdefault_id "time_estimate_seconds") by (apply Hd; elem_solve).
  rewrite (setdefault_id "time_estimate_text") by (apply Hd; elem_solve).
  apply setdefault_id, Hd. elem_solve.
Qed.

Lemma truthy_dict (d : dict) k : is_Some (d !! k) -> truthy (PDict d) = true.
Proof.
  intros [x Hx]. simpl. apply negb_true_iff, bool_decide_eq_false.
  intros ->. by rewrite lookup_empty in Hx.
Qed.

(** A returned record is read back as it was classified: the same intent,
    the same hints, and an object that holds every defaulted key. *)
Lemma returned_classified data transcript out logic intent :
  classified data logic intent ->
  apply_math_logic h data transcript = Val (Some out) ->
  exists L,
    out !! "_math_logic" = Some (PDict L)
    /\ classified out L intent
    /\ with_defaults L = L
    /\ (forall k, k ∉ computed_keys -> py_get L k = py_get logic k).
Proof.
  intros Hc Ha.
  destruct (returned_frame _ _ _ _ _ Hc Ha) as [_ Hframe].
  assert (Hml : exists L, out !! "_math_logic" = Some (PDict L)
                          /\ forall k, k ∈ default_keys -> is_Some (L !! k)).
  { destruct (apply_math_logic_cases _ _ _ Ha) as (logic' & intent' & Hc' & Hcases).
    assert (logic' = logic) as ->.
    { destruct Hc as [Hl _], Hc' as [Hl' _]. congruence. }
    cbv zeta in Hcases.
    pose proof (with_defaults_keys logic) as Hk.
    destruct Hcases as [(_ & expr & spoken & _ & _ & [[-> _]|(v & _ & _ & ->)])
                       |(_ & [[-> _]|(n & _ & _ & Hn)])].
    - eexists. split; [unfold calculate_failed; by rewrite lookup_insert_eq|].
      intros k Hin. rewrite !lookup_insert_is_Some'. auto.
    - eexists. split; [unfold calculate_succeeded; by rewrite lookup_insert_eq|].
      intros k Hin. rewrite !lookup_insert_is_Some'. auto 6.
    - eexists. split; [unfold count_failed; by rewrite lookup_insert_eq|].
      intros k Hin. rewrite !lookup_insert_is_Some'. auto.
    - rewrite count_succeeded_record in Hn.
      destruct (estimate_count_time n) as [[secs txt]|]; [|discriminate Hn].
      rewrite result_bind_val in Hn.
      destruct (count_intro h _ n) as [intro|]; [|discriminate Hn].
      rewrite result_bind_val in Hn. injection Hn as <-.
      eexists. split; [unfold count_record; by rewrite lookup_insert_eq|].
      intros k Hin. unfold count_logic. rewrite !lookup_insert_is_Some'. auto 10. }
  destruct Hml as (L & HL & Hkeys). exists L.
  assert (Hm : math_logic out = L) by (unfold math_logic; by rewrite HL).
  assert (Hget : forall k, k ∉ computed_keys -> py_get L k = py_get logic k).
  { intros k Hk. unfold py_get at 1. rewrite <- Hm, (Hframe k Hk).
    destruct (decide (k ∈ default_keys)) as [Hd|Hd].
    - fold (py_get (with_defaults logic) k).
      apply py_get_with_defaults_none.
      unfold computed_keys in Hk. unfold default_keys in Hd.
      elem_cases Hd; try elem_solve;
        exfalso; apply Hk; elem_solve.
    - by rewrite with_defaults_other. }
  split; [done|]. split; [|split; [by apply with_defaults_id|done]].
  destruct Hc as [Hl Hi]. split.
  - unfold py_get at 1. rewrite HL. simpl. unfold py_or.
    rewrite (truthy_dict L "unit") by (apply Hkeys; elem_solve). reflexivity.
  - rewrite Hget by elem_solve. exact Hi.
Qed.


Lemma calculate_failed_again data L :
  calculate_failed (calculate_failed data L)
    (<["sequence" := PList []]> (<["is_impossible" := PBool true]> L))
  = calculate_failed data L.
Proof.
  unfold calculate_failed. same_map. do 2 f_equal. same_map.
Qed.

Lemma count_failed_again data L :
  count_failed (count_failed data L)
    (<["sequence" := PList []]> (<["is_impossible" := PBool true]> L))
  = count_failed data L.
Proof.
  unfold count_failed. same_map. do 2 f_equal. same_map.
Qed.

Lemma calculate_succeeded_again data L spoken v :
  calculate_succeeded (calculate_succeeded data L spoken v)
    (math_logic (calculate_succeeded data L spoken v)) spoken v
  = calculate_succeeded data L spoken v.
Proof.
  unfold math_logic, calculate_succeeded. rewrite lookup_insert_eq.
  same_map. do 2 f_equal. same_map.
Qed.

Lemma count_record_again data L n txt intro :
  count_record (count_record data L n txt intro) (count_logic L n txt) n txt intro
  = count_record data L n txt intro.
Proof.
  unfold count_record, count_logic. same_map. do 2 f_equal. same_map.
Qed.


(** X13: the reconciliation is idempotent.  A record that
    [apply_math_logic] returned, given to it again with the same transcript,
    comes back unchanged. *)
Theorem apply_math_logic_idempotent (data : dict) (transcript : string) (out : dict) :
  apply_math_logic h data transcript = Val (Some out) ->
  apply_math_logic h out transcript = Val (Some out).
Proof.
  intros Ha.
  destruct (apply_math_logic_cases _ _ _ Ha) as (logic & intent & Hc & Hcases).
  destruct (returned_classified _ _ _ _ _ Hc Ha) as (L & HL & Hc' & Hwd & Hget).
  cbv zeta in Hcases.
  destruct Hcases as [(-> & expr & spoken & He & Hs & Hcalc)|(-> & Hcount)].
  - assert (He' : hint L "expression" "" = Val expr).
    { unfold hint in *. by rewrite Hget by elem_solve. }
    assert (Hs' : hint L "spoken_problem" transcript = Val spoken).
    { unfold hint in *. by rewrite Hget by elem_solve. }
    rewrite (apply_math_logic_calculate h _ _ _ _ _ Hc' He' Hs'), Hwd.
    destruct Hcalc as [[-> Hfail]|(v & Hne & Hv & ->)].
    + assert (L = <["sequence" := PList []]>
                    (<["is_impossible" := PBool true]> (with_defaults logic))) as ->.
      { unfold calculate_failed in HL. rewrite lookup_insert_eq in HL. congruence. }
      rewrite calculate_failed_again.
      destruct Hfail as [-> |[e ->]]; [done|]. by destruct (String.eqb expr "").
    + apply String.eqb_neq in Hne. rewrite Hne, Hv.
      assert (L = math_logic (calculate_succeeded data (with_defaults logic) spoken v))
        as -> by (unfold math_logic; by rewrite HL).
      by rewrite calculate_succeeded_again.
  - destruct Hcount as [[-> Hr]|(n & Hn & Hpos & Hout)].
    + assert (L = <["sequence" := PList []]>
                    (<["is_impossible" := PBool true]> (with_defaults logic))) as HLeq.
      { unfold count_failed in HL. rewrite lookup_insert_eq in HL. congruence. }
      rewrite (apply_math_logic_count_failed h _ _ L Hc'), Hwd.
      * subst L. by rewrite count_failed_again.
      * subst L. unfold py_get. rewrite !lookup_insert_ne by done.
        fold (py_get (with_defaults logic) "target_number").
        by rewrite py_get_with_defaults_none by elem_solve.
    + rewrite count_succeeded_record in Hout.
      destruct (estimate_count_time n) as [[secs txt]|] eqn:Hest; [|discriminate Hout].
      rewrite result_bind_val in Hout.
      destruct (count_intro h (py_get (with_defaults logic) "unit") n)
        as [intro|] eqn:Hintro; [|discriminate Hout].
      rewrite result_bind_val in Hout. cbn [snd] in Hout. injection Hout as <-.
      assert (L = count_logic (with_defaults logic) n txt) as HLeq.
      { unfold count_record in HL. rewrite lookup_insert_eq in HL. congruence. }
      rewrite (apply_math_logic_count h _ _ L n Hc'), Hwd;
        [|subst L; unfold count_logic, py_get; by simplify_map_eq|done].
      rewrite count_succeeded_record, Hest, result_bind_val. cbn [snd].
      rewrite Hget by elem_solve.
      rewrite py_get_with_defaults_none in Hintro by elem_solve.
      rewrite Hintro, result_bind_val. subst L. simpl.
      by rewrite count_record_again.
Qed.

End Returns.

(** X12: what the reconciliation never touches.  In a returned record
    every key other than [screen], [text] and [_math_logic] has the value
    it had; in [_math_logic] every key that no branch assigns and no default
    fills ([intent], [expression], [spoken_problem], any other) has the
    value it had, and [unit] and [visual_aid] have the classifier's value,
    [None] when it gave none; and no key of the record or of [_math_logic]
    is removed. *)
Theorem untouched_keys (h : Host) (data : dict) (transcript : string)
    (out logic : dict) (intent : string) :
  classified data logic intent ->
  apply_math_logic h data transcript = Val (Some out) ->
  (forall k, k ∉ ["screen"; "text"; "_math_logic"] -> out !! k = data !! k)
  /\ (forall k, k ∉ computed_keys -> k ∉ default_keys ->
      math_logic out !! k = logic !! k)
  /\ (forall k, k ∈ ["unit"; "visual_aid"] ->
      math_logic out !! k = Some (py_get logic k))
  /\ (forall k, is_Some (data !! k) -> is_Some (out !! k))
  /\ (forall k, is_Some (logic !! k) -> is_Some (math_logic out !! k)).
Proof.
  intros Hc Ha.
  destruct (returned_frame h _ _ _ _ _ Hc Ha) as [Hdata Hlogic].
  destruct (returned_classified h _ _ _ _ _ Hc Ha) as (L & HL & _ & Hwd & _).
  assert (Hm : math_logic out = L) by (unfold math_logic; by rewrite HL).
  split; [exact Hdata|]. split; [|split; [|split]].
  - intros k Hk Hd. by rewrite Hlogic, with_defaults_other.
  - intros k Hk.
    assert (Hc' : k ∉ computed_keys) by (elem_cases Hk; elem_solve).
    assert (Hd : k ∈ default_keys) by (elem_cases Hk; elem_solve).
    rewrite (Hlogic k Hc').
    destruct (with_defaults_keys logic k Hd) as [v Hv]. rewrite Hv. f_equal.
    rewrite <- (py_get_with_defaults_none logic k) by (elem_cases Hk; elem_solve).
    unfold py_get. by rewrite Hv.
  - intros k Hk.
    destruct (decide (k ∈ ["screen"; "text"; "_math_logic"])) as [Hin|Hout].
    + destruct (apply_math_logic_cases h _ _ _ Ha) as (l' & i' & _ & Hcases).
      cbv zeta in Hcases.
      destruct Hcases as [(_ & expr & spoken & _ & _ & [[-> _]|(v & _ & _ & ->)])
                         |(_ & [[-> _]|(n & _ & _ & Hn)])].
      * unfold calculate_failed. elem_cases Hin; by simplify_map_eq.
      * unfold calculate_succeeded. elem_cases Hin; by simplify_map_eq.
      * unfold count_failed.
        elem_cases Hin; rewrite ?lookup_insert_is_Some'; auto.
      * rewrite count_succeeded_record in Hn.
        destruct (estimate_count_time n) as [[secs txt]|]; [|discriminate Hn].
        rewrite result_bind_val in Hn.
        destruct (count_intro h _ n) as [intro|]; [|discriminate Hn].
        rewrite result_bind_val in Hn. injection Hn as <-.
        unfold count_record. elem_cases Hin; by simplify_map_eq.
    + by rewrite Hdata.
  - intros k Hk.
    destruct (decide (k ∈ computed_keys)) as [Hin|Hout].
    + rewrite Hm, <- Hwd. apply with_defaults_keys.
      unfold computed_keys in Hin. elem_cases Hin; elem_solve.
    + rewrite (Hlogic k Hout).
      destruct Hk as [v Hv]. by rewrite (with_defaults_present _ _ _ Hv).
Qed.

(** A key [visual_aid] of the record and the expression come back. *)
Lemma untouched_keys_witness :
  exists out,
    apply_math_logic bare_host visual_reply "one plus one" = Val (Some out)
    /\ out !! "visual_aid" = Some (PStr "***")
    /\ math_logic out !! "expression" = Some (PStr "1 + 1").
Proof.
  assert (exists out, apply_math_logic bare_host visual_reply "one plus one"
                      = Val (Some out)) as [out Ha]
    by (eexists; by vm_compute).
  destruct (untouched_keys bare_host visual_reply "one plus one" out
              (<["intent" := PStr "CALCULATE"]> (<["expression" := PStr "1 + 1"]> ∅))
              "CALCULATE") as (Hd & Hl & _).
  - split; reflexivity.
  - exact Ha.
  - exists out. split; [exact Ha|]. split.
    + rewrite Hd by elem_solve. reflexivity.
    + rewrite Hl by elem_solve. reflexivity.
Defined.

(** X7: CALCULATE with an expression that is empty after stripping, or
    whose evaluation raises any exception, returns the record with the
    fixed apology on [screen] and in [text], [is_impossible] true and an
    empty [sequence]; [target_number] stays what the classifier gave
    ([None] when it gave none).  No exception of the evaluator escapes. *)
Theorem calculate_apology (h : Host) (data : dict) (transcript : string)
    (logic : dict) (expr spoken : string) :
  classified data logic "CALCULATE" ->
  hint logic "expression" "" = Val expr ->
  hint logic "spoken_problem" transcript = Val spoken ->
  expr = "" \/ is_Val (safe_eval_expression h expr) = false ->
  exists out,
    apply_math_logic h data transcript = Val (Some out)
    /\ out !! "screen" = Some (PStr apology_screen)
    /\ out !! "text" = Some (PStr apology_text)
    /\ math_logic out !! "is_impossible" = Some (PBool true)
    /\ math_logic out !! "sequence" = Some (PList [])
    /\ math_logic out !! "target_number" = Some (py_get logic "target_number").
Proof.
  intros Hc He Hs Hfail.
  exists (calculate_failed data (with_defaults logic)). split.
  - rewrite (apply_math_logic_calculate h _ _ _ _ _ Hc He Hs).
    destruct Hfail as [-> |Hfail]; [done|].
    destruct (safe_eval_expression h expr); [done|by destruct (String.eqb expr "")].
  - destruct (calculate_failed_fields data (with_defaults logic))
      as (H1 & H2 & H3 & H4 & Hrest).
    cbv zeta in Hrest. do 4 (split; [assumption|]).
    rewrite Hrest by done.
    destruct (with_defaults_keys logic "target_number" ltac:(elem_solve)) as [v Hv].
    rewrite Hv. f_equal.
    rewrite <- (py_get_with_defaults_none logic "target_number") by elem_solve.
    unfold py_get. by rewrite Hv.
Qed.

(** [7 / (3 - 3)] divides by zero. *)
Lemma calculate_apology_witness :
  exists out,
    apply_math_logic bare_host (calculate_reply "7 / (3 - 3)" PNone) "hm"
      = Val (Some out)
    /\ out !! "screen" = Some (PStr apology_screen)
    /\ out !! "text" = Some (PStr apology_text).
Proof.
  destruct (calculate_apology bare_host (calculate_reply "7 / (3 - 3)" PNone) "hm"
              (<["intent" := PStr "CALCULATE"]>
                 (<["expression" := PStr "7 / (3 - 3)"]>
                    (<["spoken_problem" := PStr "that"]>
                       (<["step_size" := PNone]> ∅))))
              "7 / (3 - 3)" "that")
    as (out & Ha & H1 & H2 & _).
  - split; reflexivity.
  - reflexivity.
  - reflexivity.
  - right. by vm_compute.
  - exists out. by repeat split.
Defined.


(** X9: the shape of the record.  When [_math_logic] is absent or falsy
    ([None], an empty object, zero, an empty string), or its [intent] is
    absent or falsy, the function returns [None]; when [_math_logic] is
    truthy and not an object, or the [intent] is truthy and not a string, it
    raises [AttributeError]. *)
Theorem malformed_record (h : Host) (data : dict) (transcript : string) :
  let ml := py_get data "_math_logic" in
  (truthy ml = false -> apply_math_logic h data transcript = Val None)
  /\ (truthy ml = true -> is_dict ml = false ->
      apply_math_logic h data transcript = Raise AttributeError)
  /\ (forall logic, ml = PDict logic -> logic <> ∅ ->
      not_text (py_get logic "intent") = true ->
      apply_math_logic h data transcript = Raise AttributeError)
  /\ (forall logic, ml = PDict logic -> logic <> ∅ ->
      truthy (py_get logic "intent") = false ->
      apply_math_logic h data transcript = Val None).
Proof.
  intros ml. subst ml. unfold apply_math_logic, py_or.
  split; [|split; [|split]].
  - intros ->. reflexivity.
  - intros -> Hd. by destruct (py_get data "_math_logic").
  - intros logic -> Hne.
    assert (truthy (PDict logic) = true) as ->.
    { simpl. by apply negb_true_iff, bool_decide_eq_false. }
    cbn [as_dict]. rewrite result_bind_val.
    unfold not_text. intros [-> Hs]%andb_true_iff.
    by destruct (py_get logic "intent").
  - intros logic -> Hne.
    assert (truthy (PDict logic) = true) as ->.
    { simpl. by apply negb_true_iff, bool_decide_eq_false. }
    cbn [as_dict]. rewrite result_bind_val.
    intros ->. reflexivity.
Qed.



(** X10: the narration of a COUNT, for a target whose integer value [n]
    is positive and whose estimate is [time_text].  The [text] is an opening
    sentence followed by the jumps and the estimate; the opening is "Let's
    jump up to {n}." without a unit, and "Let's jump up to {n} {unit}." with
    one, the unit followed by "s" unless [n] is 1; the [screen] is the jumps
    joined by commas.  A unit that is truthy and not a string raises
    [TypeError] when [n] is not 1. *)
Theorem count_narration (h : Host) (data : dict) (transcript : string)
    (logic : dict) (n : Z) (time_text : string) :
  classified data logic "COUNT" ->
  py_int (py_get logic "target_number") = Val n -> 0 < n ->
  estimate_count_time n = Val (n, time_text) ->
  let unit := py_get logic "unit" in
  let says (intro : string) :=
    exists out,
      apply_math_logic h data transcript = Val (Some out)
      /\ out !! "text" = Some (PStr (intro +:+ count_closing n time_text))
      /\ out !! "screen" = Some (PStr (PyStr.join ", " (jump_digits n))) in
  (truthy unit = false ->
   says ("Let's jump up to " +:+ PyStr.grouped n +:+ "."))
  /\ (forall u, unit = PStr u -> u <> "" ->
      says ("Let's jump up to " +:+ PyStr.grouped n +:+ " "
            +:+ (if n =? 1 then u else u +:+ "s") +:+ "."))
  /\ (not_text unit = true -> n <> 1 ->
      apply_math_logic h data transcript = Raise TypeError).
Proof.
  intros Hc Hn Hpos Hest unit says. subst unit says. cbv beta.
  rewrite (apply_math_logic_count h _ _ _ _ Hc Hn Hpos).
  rewrite count_succeeded_record, Hest, result_bind_val. cbn [snd].
  rewrite py_get_with_defaults_none by elem_solve.
  unfold count_intro.
  split; [|split].
  - intros ->. eexists. split; [reflexivity|].
    unfold count_record. split; by simplify_map_eq.
  - intros u -> Hu.
    assert (truthy (PStr u) = true) as ->.
    { simpl. by apply negb_true_iff, String.eqb_neq. }
    destruct (n =? 1); (eexists; split; [reflexivity|]);
      unfold count_record; split; by simplify_map_eq.
  - unfold not_text. intros [-> Hs]%andb_true_iff Hne.
    apply Z.eqb_neq in Hne. rewrite Hne.
    by destruct (py_get logic "unit").
Qed.

(** Three apples. *)
Lemma count_narration_witness :
  exists out,
    apply_math_logic bare_host
      (reply "Go!" (<["intent" := PStr "COUNT"]>
                      (<["target_number" := PInt 3]>
                         (<["unit" := PStr "apple"]> ∅))))
      "count three apples" = Val (Some out)
    /\ out !! "text"
       = Some (PStr ("Let's jump up to 3 apples. Our ten jumps are: 1, 2, 3."
                     +:+ " If you counted by ones, it would take about 3 seconds.")).
Proof.
  destruct (count_narration bare_host
              (reply "Go!" (<["intent" := PStr "COUNT"]>
                              (<["target_number" := PInt 3]>
                                 (<["unit" := PStr "apple"]> ∅))))
              "count three apples"
              (<["intent" := PStr "COUNT"]>
                 (<["target_number" := PInt 3]> (<["unit" := PStr "apple"]> ∅)))
              3 "about 3 seconds")
    as (_ & H & _).
  - split; reflexivity.
  - reflexivity.
  - lia.
  - reflexivity.
  - destruct (H "apple" eq_refl ltac:(discriminate)) as (out & Ha & Ht & _).
    exists out. split; [exact Ha|]. rewrite Ht. reflexivity.
Defined.



(** The record for [2 + 2], reconciled twice. *)
Lemma apply_math_logic_idempotent_witness :
  exists out,
    apply_math_logic bare_host (calculate_reply "2 + 2" PNone) "two plus two"
      = Val (Some out)
    /\ apply_math_logic bare_host out "two plus two" = Val (Some out).
Proof.
  assert (exists out,
            apply_math_logic bare_host (calculate_reply "2 + 2" PNone) "two plus two"
            = Val (Some out)) as [out Ha]
    by (eexists; by vm_compute).
  exists out. split; [exact Ha|].
  exact (apply_math_logic_idempotent bare_host _ _ _ Ha).
Defined.

(** ** The shape of a returned record *)

(** X18: every record [apply_math_logic] returns is well formed.  It holds
    an object under [_math_logic] with the eight defaulted keys, a string
    under [screen], a boolean [is_impossible] and a list [sequence], and the
    flag is true exactly when the sequence is empty. *)
Theorem returned_record_shape (h : Host) (data : dict) (transcript : string)
    (out : dict) :
  apply_math_logic h data transcript = Val (Some out) ->
  out !! "_math_logic" = Some (PDict (math_logic out))
  /\ (forall k, k ∈ default_keys -> is_Some (math_logic out !! k))
  /\ (exists s, out !! "screen" = Some (PStr s))
  /\ exists (b : bool) (l : list pyval),
       math_logic out !! "is_impossible" = Some (PBool b)
       /\ math_logic out !! "sequence" = Some (PList l)
       /\ (b = true <-> l = []).
Proof.
  intros Ha.
  destruct (apply_math_logic_cases h _ _ _ Ha) as (logic & intent & Hc & Hcases).
  destruct (returned_classified h _ _ _ _ _ Hc Ha) as (L & HL & _ & Hwd & _).
  assert (Hm : math_logic out = L) by (unfold math_logic; by rewrite HL).
  split; [by rewrite Hm|].
  split.
  { intros k Hk. rewrite Hm, <- Hwd. by apply with_defaults_keys. }
  cbv zeta in Hcases.
  destruct Hcases as [(_ & expr & spoken & _ & _ & [[-> _]|(v & _ & _ & ->)])
                     |(_ & [[-> _]|(n & _ & Hpos & Hn)])].
  - destruct (calculate_failed_fields data (with_defaults logic))
      as (H1 & H2 & H3 & _). cbv zeta in *.
    split; [by eexists|]. exists true, []. by repeat split.
  - destruct (calculate_succeeded_fields data (with_defaults logic) spoken v)
      as (_ & H2 & H3 & H4 & _). cbv zeta in *.
    split; [by eexists|]. eexists false, _. split; [done|]. split; [done|].
    split; discriminate.
  - destruct (count_failed_fields data (with_defaults logic))
      as (H1 & H2 & H3 & _).
    split; [by eexists|]. exists true, []. by repeat split.
  - destruct (count_succeeded_fields h _ _ _ _ Hn) as (_ & H2 & H3 & _ & _ & H6).
    rewrite (plan_possible n Hpos) in H3.
    split; [by eexists|]. eexists false, _. split; [done|]. split; [done|].
    split; [discriminate|].
    intros Hnil. apply fmap_nil_inv in Hnil. exfalso.
    unfold plan_sequence, build_count_sequence in Hnil.
    destruct (Z.leb_spec n 0); [lia|].
    destruct (Z.leb_spec n 10).
    + cbn [fst snd] in Hnil. unfold range in Hnil.
      apply (f_equal length) in Hnil. rewrite length_seqZ in Hnil.
      simpl in Hnil. lia.
    + cbn [fst snd] in Hnil. revert Hnil. by case_match.
Qed.

(** The record of COUNT to 47 holds a [unit]. *)
Lemma returned_record_shape_witness :
  exists out,
    apply_math_logic bare_host (count_reply (PInt 47)) "count to 47" = Val (Some out)
    /\ is_Some (math_logic out !! "unit").
Proof.
  assert (exists out,
            apply_math_logic bare_host (count_reply (PInt 47)) "count to 47"
            = Val (Some out)) as [out Ha]
    by (eexists; by vm_compute).
  exists out. split; [exact Ha|].
  destruct (returned_record_shape bare_host _ _ _ Ha) as (_ & H & _).
  apply H. elem_solve.
Defined.

(** ** The two formats of the jumps *)

(** Below 1000 the two formats of an integer, [str(x)] and [f"{x:,}"], give
    the same text (checked on each value). *)
Lemma grouped_small z : 0 <= z < 1000 -> PyStr.grouped z = PyStr.of_int z.
Proof.
  intros Hz.
  assert (Hall : forallb (fun z => String.eqb (PyStr.grouped z) (PyStr.of_int z))
                   (seqZ 0 1000) = true) by (by vm_compute).
  rewrite forallb_forall in Hall.
  apply String.eqb_eq, Hall, list_elem_of_In, elem_of_seqZ. lia.
Qed.

Lemma jump_digits_one_format (n : Z) :
  jump_digits n = PyStr.grouped <$> plan_sequence n.
Proof.
  unfold jump_digits. destruct (Z.leb_spec n 10) as [Hn|Hn]; [|done].
  destruct (Z.le_gt_cases n 0) as [H0|H0].
  - unfold plan_sequence. by rewrite plan_nonpositive.
  - unfold plan_sequence. rewrite plan_small by lia. cbn [fst snd].
    apply list_fmap_ext. intros i x Hx.
    symmetry. apply grouped_small.
    apply list_elem_of_lookup_2, elem_of_seqZ in Hx. lia.
Qed.

(** X19: the screen of a COUNT shows the jumps in one format.  The source
    formats the jumps with [str(x)] up to ten and with [f"{x:,}"] above; for
    every positive target the screen is the jumps with thousands separators,
    joined by commas: the branch on [n <= 10] changes nothing. *)
Theorem count_screen_one_format (h : Host) (data : dict) (transcript : string)
    (logic : dict) (n : Z) (out : dict) :
  classified data logic "COUNT" ->
  py_int (py_get logic "target_number") = Val n -> 0 < n ->
  apply_math_logic h data transcript = Val (Some out) ->
  out !! "screen"
  = Some (PStr (PyStr.join ", " (PyStr.grouped <$> plan_sequence n))).
Proof.
  intros Hc Hn Hpos Ha.
  rewrite (apply_math_logic_count h _ _ _ _ Hc Hn Hpos) in Ha.
  destruct (count_succeeded h data (with_defaults logic) n) as [o|] eqn:Ho;
    [|discriminate Ha].
  injection Ha as <-.
  destruct (count_succeeded_fields h _ _ _ _ Ho) as (_ & _ & _ & _ & _ & H6).
  by rewrite H6, jump_digits_one_format.
Qed.

(** The screen of COUNT to 7. *)
Lemma count_screen_one_format_witness :
  exists out,
    apply_math_logic bare_host (count_reply (PInt 7)) "count to 7" = Val (Some out)
    /\ out !! "screen" = Some (PStr "1, 2, 3, 4, 5, 6, 7").
Proof.
  assert (exists out,
            apply_math_logic bare_host (count_reply (PInt 7)) "count to 7"
            = Val (Some out)) as [out Ha]
    by (eexists; by vm_compute).
  exists out. split; [exact Ha|].
  rewrite (count_screen_one_format bare_host (count_reply (PInt 7)) "count to 7"
             (<["intent" := PStr "COUNT"]> (<["target_number" := PInt 7]> ∅))
             7 out); [reflexivity|split; reflexivity|reflexivity|lia|exact Ha].
Defined.

(** ** The routes [chat] and [speak] *)

Lemma chars_of_chars l : PyStr.chars (PyStr.of_chars l) = l.
Proof. apply list_ascii_of_string_of_list_ascii. Qed.

Lemma of_chars_chars s : PyStr.of_chars (PyStr.chars s) = s.
Proof. apply string_of_list_ascii_of_string. Qed.

Lemma drop_while_head p l :
  match PyStr.drop_while p l with
  | [] => True
  | c :: _ => p c = false
  end.
Proof.
  induction l as [|c l IH]; simpl; [done|].
  destruct (p c) eqn:Hc; [exact IH|exact Hc].
Qed.

Lemma drop_while_id p l :
  match l with [] => True | c :: _ => p c = false end ->
  PyStr.drop_while p l = l.
Proof. destruct l as [|c l]; simpl; [done|]. by intros ->. Qed.

Lemma drop_while_suffix p l :
  exists k, l = (k ++ PyStr.drop_while p l)%list.
Proof.
  induction l as [|c l [k IH]]; simpl; [by exists []|].
  destruct (p c); [|by exists []].
  exists (c :: k). simpl. by rewrite <- IH.
Qed.

Lemma rtrim_prefix p l : exists k, l = (rtrim p l ++ k)%list.
Proof.
  unfold rtrim. destruct (drop_while_suffix p (rev l)) as [k Hk].
  exists (rev k). rewrite <- rev_app_distr, <- Hk. by rewrite rev_involutive.
Qed.

Lemma rtrim_head p l :
  match l with [] => True | c :: _ => p c = false end ->
  match rtrim p l with [] => True | c :: _ => p c = false end.
Proof.
  intros Hl. destruct (rtrim_prefix p l) as [k Hk].
  destruct (rtrim p l) as [|c r]; [done|].
  rewrite Hk in Hl. exact Hl.
Qed.

Lemma rtrim_idempotent p l : rtrim p (rtrim p l) = rtrim p l.
Proof.
  unfold rtrim. rewrite rev_involutive.
  by rewrite (drop_while_id p _ (drop_while_head p (rev l))).
Qed.

(** [strip] changes nothing in a text it has returned. *)
Lemma strip_idempotent s : PyStr.strip (PyStr.strip s) = PyStr.strip s.
Proof.
  unfold PyStr.strip, PyStr.rstrip_by, PyStr.lstrip_by.
  rewrite !chars_of_chars.
  fold (rtrim PyStr.is_space (PyStr.drop_while PyStr.is_space (PyStr.chars s))).
  rewrite (drop_while_id PyStr.is_space (rtrim _ _)).
  - fold (rtrim PyStr.is_space
            (rtrim PyStr.is_space (PyStr.drop_while PyStr.is_space (PyStr.chars s)))).
    by rewrite rtrim_idempotent.
  - apply rtrim_head, drop_while_head.
Qed.

Section RouteProperties.
Variable g : Globals.
Variable s : Services.
Variable h : Host.

Lemma body_text_none body : no_text body -> body_text body = "".
Proof.
  intros [-> |[(b & -> & Hb)|(d & -> & Hd)]]; [done|by destruct b|].
  unfold body_text. cbn [as_dict]. rewrite result_bind_val. unfold py_or.
  destruct Hd as [-> |[Hn|(t & Ht & Hb)]]; [done| |].
  - unfold not_text in Hn. apply andb_true_iff in Hn as [-> Hs].
    by destruct (py_get d "text").
  - rewrite Ht. by destruct (truthy (PStr t)).
Qed.

Lemma body_text_stripped body :
  PyStr.strip (body_text body) = body_text body.
Proof.
  unfold body_text. destruct body as [b|]; [|done].
  destruct (as_dict b) as [d|]; [|done]. cbn [mbind result_bind].
  destruct (py_or (py_get d "text") (PStr "")); try done.
  cbn [str_method]. apply strip_idempotent.
Qed.

Lemma chat_answer_blank :
  chat_answer g s h ""
  = ([], Done (JSONResponse (error_content "No text captured from audio") 400)).
Proof. reflexivity. Qed.

(** The reply made up for an unparsed answer is small talk. *)
Lemma unparsed_reply_none raw transcript :
  apply_math_logic h (unparsed_reply raw) transcript = Val None.
Proof. by vm_compute. Qed.

Lemma chat_answer_calls user_text :
  user_text <> "" ->
  exists r,
    chat_answer g s h user_text
    = ([completions_create (MODEL_NAME g) (brain_messages g s user_text)], r).
Proof.
  intros Hne. apply String.eqb_neq in Hne. unfold chat_answer. rewrite Hne.
  unfold call_brain, request. cbv zeta.
  destruct (completion s _ _) as [raw|e]; [|by eexists].
  cbn [mbind io_bind mret io_ret app].
  match goal with
  | |- context [lift (mbind ?k ?r)] => destruct (mbind k r) as [[d|]|e']
  end; eexists; reflexivity.
Qed.

Lemma chat_json headers file body :
  contains "multipart/form-data" (default "" (headers !! "content-type")) = false ->
  chat g s h headers file body = chat_answer g s h (body_text body).
Proof. intros Hm. unfold chat. cbv zeta. by rewrite Hm. Qed.

Lemma chat_answer_parsed u raw data :
  u <> "" ->
  completion s (MODEL_NAME g) (brain_messages g s u) = Done raw ->
  match raw with PStr t => json_loads s t | _ => None end = Some (PDict data) ->
  chat_answer g s h u
  = ([completions_create (MODEL_NAME g) (brain_messages g s u)],
     match apply_math_logic h data u with
     | Val (Some d) => Done (JSONResponse (PDict (<["user_text" := PStr u]> d)) 200)
     | Val None => Failed (PyError TypeError)
     | Raise e => Failed (PyError e)
     end).
Proof.
  intros Hne Hraw Hparsed. apply String.eqb_neq in Hne.
  unfold chat_answer. rewrite Hne. unfold call_brain, request. cbv zeta.
  rewrite Hraw. cbn [mbind io_bind mret io_ret app]. rewrite Hparsed.
  cbn [mbind io_bind mret io_ret app as_dict result_bind].
  by destruct (apply_math_logic h data u) as [[d|]|e].
Qed.

Lemma chat_answer_unparsed u raw :
  u <> "" ->
  completion s (MODEL_NAME g) (brain_messages g s u) = Done raw ->
  match raw with PStr t => json_loads s t | _ => None end = None ->
  chat_answer g s h u
  = ([completions_create (MODEL_NAME g) (brain_messages g s u)],
     Failed (PyError TypeError)).
Proof.
  intros Hne Hraw Hparsed. apply String.eqb_neq in Hne.
  unfold chat_answer. rewrite Hne. unfold call_brain, request. cbv zeta.
  rewrite Hraw. cbn [mbind io_bind mret io_ret app]. rewrite Hparsed.
  cbn [mbind io_bind mret io_ret app as_dict result_bind].
  by rewrite unparsed_reply_none.
Qed.

End RouteProperties.

(** X14: a request that carries no text is answered with status 400 and
    the language model is not called.  A multipart request without a file,
    or with an empty file, is refused before any call; one whose
    transcription is blank is refused after the transcription alone; a
    request that is not multipart is refused, without any call, when its
    body is not JSON or not an object, or its [text] is absent, falsy, not a
    string or blank. *)
Theorem chat_needs_text (g : Globals) (s : Services) (h : Host)
    (headers : gmap string string) (file : option string) (body : option pyval) :
  let multipart :=
    contains "multipart/form-data" (default "" (headers !! "content-type")) in
  let refused (msg : string) (made : list call) :=
    chat g s h headers file body
    = (made, Done (JSONResponse (error_content msg) 400)) in
  (multipart = true -> file = None -> refused "No audio file provided" [])
  /\ (multipart = true -> file = Some "" -> refused "Empty audio file" [])
  /\ (multipart = true ->
      forall audio t, file = Some audio -> audio <> "" ->
        transcription s (TRANSCRIBE_MODEL g) "audio.webm" audio = Done t ->
        blank t ->
        refused "No text captured from audio"
          [transcriptions_create (TRANSCRIBE_MODEL g) "audio.webm" audio])
  /\ (multipart = false -> no_text body ->
      refused "No text captured from audio" []).
Proof.
  intros multipart refused. subst multipart refused. cbv beta.
  unfold chat. cbv zeta.
  destruct (contains _ _).
  - split; [by intros _ ->|]. split; [by intros _ ->|].
    split; [|discriminate].
    intros _ audio t -> Hne%String.eqb_neq Ht Hb. rewrite Hne.
    unfold transcribe_audio, request. rewrite Ht.
    cbn [mbind io_bind mret io_ret app]. unfold blank in Hb. rewrite Hb.
    reflexivity.
  - do 3 (split; [discriminate|]). intros _ Hb.
    by rewrite (body_text_none _ Hb).
Qed.

(** X16: small talk ends the route with a [TypeError].  When the content
    of the completion is not a string, or [json.loads] rejects it (so
    [call_brain] makes up its SMALL_TALK record), or it is a record whose
    intent is neither CALCULATE nor COUNT, [apply_math_logic] returns
    [None] and [data["user_text"] = user_text] raises: after the one call
    of the model no response is built. *)
Theorem chat_small_talk_fails (g : Globals) (s : Services) (h : Host)
    (headers : gmap string string) (file : option string) (body : option pyval)
    (raw : pyval) :
  contains "multipart/form-data" (default "" (headers !! "content-type")) = false ->
  let u := body_text body in
  u <> "" ->
  completion s (MODEL_NAME g) (brain_messages g s u) = Done raw ->
  is_str raw = false
  \/ (exists t, raw = PStr t /\ json_loads s t = None)
  \/ (exists t data logic intent,
        raw = PStr t /\ json_loads s t = Some (PDict data)
        /\ classified data logic intent
        /\ intent <> "CALCULATE" /\ intent <> "COUNT") ->
  chat g s h headers file body
  = ([completions_create (MODEL_NAME g) (brain_messages g s u)],
     Failed (PyError TypeError)).
Proof.
  intros Hm u Hne Hraw Hcases. subst u. rewrite (chat_json g s h _ _ _ Hm).
  destruct Hcases
    as [Hs|[(t & -> & Hl)|(t & data & logic & intent & -> & Hl & Hc & H1 & H2)]].
  - apply (chat_answer_unparsed g s h _ raw Hne Hraw). by destruct raw.
  - by apply (chat_answer_unparsed g s h _ (PStr t) Hne Hraw).
  - rewrite (chat_answer_parsed g s h _ (PStr t) data Hne Hraw Hl).
    by rewrite (apply_math_logic_other h _ _ _ _ Hc H1 H2).
Qed.



Lemma brain_messages_shape (g : Globals) (s : Services) u :
  let messages := brain_messages g s u in
  head messages = Some ("system", BASE_PROMPT g)
  /\ List.last messages ("", "") = ("user", u)
  /\ length messages = (if truthy (REFERENCE_DATA g) then 3 else 2)%nat.
Proof.
  unfold brain_messages. cbv zeta. by destruct (truthy (REFERENCE_DATA g)).
Qed.

Lemma chat_answer_calls_cases (g : Globals) (s : Services) (h : Host) u :
  (u = "" /\ calls (chat_answer g s h u) = [])
  \/ (u <> ""
      /\ calls (chat_answer g s h u)
         = [completions_create (MODEL_NAME g) (brain_messages g s u)]).
Proof.
  destruct (String.eqb_spec u "") as [-> |Hne]; [by left|right].
  split; [done|].
  destruct (chat_answer_calls g s h u Hne) as [r ->]. reflexivity.
Qed.

(** X15: the calls of one request.  A request makes at most two calls,
    and a completion it asks for is asked of the configured model, with two
    or three messages: the system prompt first, and last the user's text,
    which is never empty and has no blank at either end ([strip] leaves it
    as it is). *)
Theorem chat_calls_with_text (g : Globals) (s : Services) (h : Host)
    (headers : gmap string string) (file : option string) (body : option pyval)
    (model : string) (messages : list message) :
  completions_create model messages ∈ calls (chat g s h headers file body) ->
  (exists u,
     u <> "" /\ PyStr.strip u = u /\ model = MODEL_NAME g
     /\ head messages = Some ("system", BASE_PROMPT g)
     /\ List.last messages ("", "") = ("user", u)
     /\ (2 <= length messages <= 3)%nat)
  /\ (length (calls (chat g s h headers file body)) <= 2)%nat.
Proof.
  assert (Hshape : forall u, u <> "" -> PyStr.strip u = u ->
            completions_create model messages
            ∈ [completions_create (MODEL_NAME g) (brain_messages g s u)] ->
            exists u,
              u <> "" /\ PyStr.strip u = u /\ model = MODEL_NAME g
              /\ head messages = Some ("system", BASE_PROMPT g)
              /\ List.last messages ("", "") = ("user", u)
              /\ (2 <= length messages <= 3)%nat).
  { intros u Hne Hstrip [= -> ->]%list_elem_of_singleton.
    destruct (brain_messages_shape g s u) as (H1 & H2 & H3). cbv zeta in *.
    exists u. repeat split; try done; rewrite H3; by destruct (truthy _); lia. }
  unfold chat. cbv zeta.
  destruct (contains _ _).
  - destruct file as [audio|]; [|by intros ?%elem_of_nil].
    destruct (String.eqb audio ""); [by intros ?%elem_of_nil|].
    unfold transcribe_audio, request.
    destruct (transcription s _ _ _) as [t|e];
      cbn [mbind io_bind mret io_ret app calls fst].
    + destruct (chat_answer g s h (PyStr.strip t)) as [cs r] eqn:Hca.
      destruct (chat_answer_calls_cases g s h (PyStr.strip t)) as [[_ Hc]|[Hne Hc]];
        rewrite Hca in Hc; cbn [calls fst] in Hc; subst cs; cbn [fst app].
      * intros [[=]|?%elem_of_nil]%elem_of_cons. done.
      * intros [[=]|Hin]%elem_of_cons.
        split; [|simpl; lia].
        eapply Hshape; [exact Hne|apply strip_idempotent|exact Hin].
    + intros [[=]|?%elem_of_nil]%elem_of_cons. done.
  - destruct (chat_answer_calls_cases g s h (body_text body)) as [[_ Hc]|[Hne Hc]];
      rewrite Hc.
    + by intros ?%elem_of_nil.
    + intros Hin. split; [|simpl; lia].
      eapply Hshape; [exact Hne|apply body_text_stripped|exact Hin].
Qed.

(** An answer that is not JSON. *)
Lemma chat_small_talk_fails_witness :
  chat plain_globals (scripted (PStr "Hello!") None) bare_host ∅ None
    (json_body " hi ")
  = ([completions_create "gpt-4o"
        [("system", "You are Number Bot."); ("user", "hi")]],
     Failed (PyError TypeError)).
Proof.
  apply (chat_small_talk_fails plain_globals (scripted (PStr "Hello!") None)
           bare_host ∅ None (json_body " hi ") (PStr "Hello!")).
  - reflexivity.
  - by vm_compute.
  - reflexivity.
  - right. left. by exists "Hello!".
Defined.


(** The calls of the request {text: hi}. *)
Lemma chat_calls_with_text_witness :
  (length (calls (chat plain_globals (scripted (PStr "Hello!") None) bare_host ∅
                    None (json_body " hi "))) <= 2)%nat.
Proof.
  destruct (chat_calls_with_text plain_globals (scripted (PStr "Hello!") None)
              bare_host ∅ None (json_body " hi ") "gpt-4o"
              [("system", "You are Number Bot."); ("user", "hi")]) as [_ H].
  - assert (calls (chat plain_globals (scripted (PStr "Hello!") None) bare_host ∅
                      None (json_body " hi "))
            = [completions_create "gpt-4o"
                 [("system", "You are Number Bot."); ("user", "hi")]]) as ->
      by (by vm_compute).
    constructor.
  - exact H.
Defined.

Lemma returned_screen (h : Host) data transcript out :
  apply_math_logic h data transcript = Val (Some out) ->
  (exists L, out !! "_math_logic" = Some (PDict L))
  /\ exists sc, out !! "screen" = Some (PStr sc).
Proof.
  intros Ha.
  destruct (apply_math_logic_cases h _ _ _ Ha) as (logic & intent & Hc & Hcases).
  destruct (returned_classified h _ _ _ _ _ Hc Ha) as (L & HL & _).
  split; [by exists L|]. cbv zeta in Hcases.
  destruct Hcases as [(_ & expr & spoken & _ & _ & [[-> _]|(v & _ & _ & ->)])
                     |(_ & [[-> _]|(n & _ & Hpos & Hn)])].
  - destruct (calculate_failed_fields data (with_defaults logic))
      as (_ & _ & H3 & _). by eexists.
  - destruct (calculate_succeeded_fields data (with_defaults logic) spoken v)
      as (_ & _ & _ & H4 & _). by eexists.
  - destruct (count_failed_fields data (with_defaults logic))
      as (_ & _ & H3 & _). by eexists.
  - destruct (count_succeeded_fields h _ _ _ _ Hn) as (_ & _ & _ & _ & _ & H6).
    by eexists.
Qed.

Lemma chat_answer_responses (g : Globals) (s : Services) (h : Host) u cs c st :
  chat_answer g s h u = (cs, Done (JSONResponse c st)) ->
  (u = "" /\ st = 400 /\ cs = []
   /\ c = error_content "No text captured from audio")
  \/ (u <> "" /\ st = 200
      /\ cs = [completions_create (MODEL_NAME g) (brain_messages g s u)]
      /\ exists data out,
           apply_math_logic h data u = Val (Some out)
           /\ c = PDict (<["user_text" := PStr u]> out)).
Proof.
  unfold chat_answer. destruct (String.eqb_spec u "") as [-> |Hne].
  { intros [= <- <- <-]. by left. }
  intros Hrun. right. split; [done|].
  unfold call_brain, request in Hrun. cbv zeta in Hrun.
  destruct (completion s _ _) as [raw|e]; [|discriminate Hrun].
  cbn [mbind io_bind mret io_ret app] in Hrun.
  match type of Hrun with
  | context [as_dict ?v] => destruct v as [| | | | | | |data]; try discriminate Hrun
  end.
  cbn [as_dict mbind result_bind] in Hrun.
  destruct (apply_math_logic h data u) as [[out|]|e] eqn:Ha;
    try discriminate Hrun.
  cbn [lift mret io_ret app] in Hrun. injection Hrun as <- <- <-.
  split; [done|]. split; [done|]. by exists data, out.
Qed.

(** X20: every response of the route.  Whenever [chat] returns, either
    the status is 400, the content is an error record with an empty
    [user_text] and no completion was asked for; or the status is 200, the
    content is a record with the user's text, which is not empty, under
    [user_text], an object under [_math_logic] and a string under [screen],
    and the completion was the last call, the only one of its kind. *)
Theorem chat_responses (g : Globals) (s : Services) (h : Host)
    (headers : gmap string string) (file : option string) (body : option pyval)
    (made : list call) (content : pyval) (status : Z) :
  chat g s h headers file body = (made, Done (JSONResponse content status)) ->
  (status = 400
   /\ (exists msg, content = error_content msg)
   /\ forall model messages, completions_create model messages ∉ made)
  \/ (status = 200
      /\ exists (d : dict) (u : string),
           content = PDict d
           /\ d !! "user_text" = Some (PStr u) /\ u <> ""
           /\ (exists L, d !! "_math_logic" = Some (PDict L))
           /\ (exists sc, d !! "screen" = Some (PStr sc))
           /\ exists before,
                made = (before ++ [completions_create (MODEL_NAME g)
                                     (brain_messages g s u)])%list
                /\ forall model messages,
                     completions_create model messages ∉ before).
Proof.
  assert (Hanswer : forall u cs pre,
            chat_answer g s h u = (cs, Done (JSONResponse content status)) ->
            (forall model messages, completions_create model messages ∉ pre) ->
            (status = 400
             /\ (exists msg, content = error_content msg)
             /\ forall model messages,
                  completions_create model messages ∉ (pre ++ cs)%list)
            \/ (status = 200
                /\ exists (d : dict) (u : string),
                     content = PDict d
                     /\ d !! "user_text" = Some (PStr u) /\ u <> ""
                     /\ (exists L, d !! "_math_logic" = Some (PDict L))
                     /\ (exists sc, d !! "screen" = Some (PStr sc))
                     /\ exists before,
                          (pre ++ cs)%list
                          = (before ++ [completions_create (MODEL_NAME g)
                                          (brain_messages g s u)])%list
                          /\ forall model messages,
                               completions_create model messages ∉ before)).
  { intros u cs pre Hrun Hpre.
    destruct (chat_answer_responses g s h u cs content status Hrun)
      as [(-> & -> & -> & ->)|(Hne & -> & -> & data & out & Ha & ->)].
    - left. split; [done|]. split; [by eexists|]. by rewrite app_nil_r.
    - right. split; [done|]. exists (<["user_text" := PStr u]> out), u.
      destruct (returned_screen h _ _ _ Ha) as [[L HL] [sc Hsc]].
      split; [done|]. split; [by rewrite lookup_insert_eq|]. split; [done|].
      split; [exists L; by rewrite lookup_insert_ne|].
      split; [exists sc; by rewrite lookup_insert_ne|].
      by exists pre. }
  unfold chat. cbv zeta.
  destruct (contains _ _).
  - destruct file as [audio|].
    + destruct (String.eqb audio "").
      * intros [= <- <- <-]. left. split; [done|]. split; [by eexists|].
        intros ? ? ?%elem_of_nil. done.
      * unfold transcribe_audio, request.
        destruct (transcription s _ _ _) as [t|e]; [|discriminate].
        cbn [mbind io_bind mret io_ret app].
        destruct (chat_answer g s h (PyStr.strip t)) as [cs r] eqn:Hca.
        intros [= <- ->].
        apply (Hanswer _ _ [transcriptions_create _ _ _] Hca).
        intros ? ? [[=]|?%elem_of_nil]%elem_of_cons. done.
    + intros [= <- <- <-]. left. split; [done|]. split; [by eexists|].
      intros ? ? ?%elem_of_nil. done.
  - intros Hrun. apply (Hanswer _ _ [] Hrun).
    intros ? ? ?%elem_of_nil. done.
Qed.

(** The response to {text: two plus two}. *)
Lemma chat_responses_witness :
  exists d,
    chat plain_globals
      (scripted (PStr "{}") (Some (PDict (calculate_reply "2 + 2" PNone))))
      bare_host ∅ None (json_body "two plus two")
    = ([completions_create "gpt-4o"
          [("system", "You are Number Bot."); ("user", "two plus two")]],
       Done (JSONResponse (PDict d) 200))
    /\ exists sc, d !! "screen" = Some (PStr sc).
Proof.
  assert (exists d,
            chat plain_globals
              (scripted (PStr "{}") (Some (PDict (calculate_reply "2 + 2" PNone))))
              bare_host ∅ None (json_body "two plus two")
            = ([completions_create "gpt-4o"
                  [("system", "You are Number Bot."); ("user", "two plus two")]],
               Done (JSONResponse (PDict d) 200))) as [d Hd]
    by (eexists; by vm_compute).
  exists d. split; [exact Hd|].
  destruct (chat_responses _ _ _ _ _ _ _ _ _ Hd)
    as [([=] & _)|(_ & d' & u & [= <-] & _ & _ & _ & Hsc & _)].
  exact Hsc.
Defined.

